(** * Room workflow, task timer and audit trail of the hotel housekeeping app

    A shallow embedding of the TypeScript sources:
    - the type declarations ([Room], [Profile], [WorkLog], [AuditLog],
      [TimerState], [Notification]),
    - the zustand store ([useAppStore]: rooms, timer, notifications),
    - the Supabase helpers ([updateRoomStatus], [createAuditLog],
      [createWorkLog], [pauseWorkLog], [resumeWorkLog], [finishWorkLog]),
    - the [useRooms] hook ([changeRoomStatus], [startTask], [pauseTask],
      [resumeTask], [finishTask], [formatDuration]),
    - the [statusWorkflow] table of the room modal.

    Conventions.
    - JavaScript numbers that hold integers (milliseconds, seconds) are [Z].
    - [T | null] and optional fields are [option T]; JavaScript truthiness
      of such a value is written out ([truthy_string], [truthy_number]).
    - Room statuses and task types are the strings the program compares at
      run time; closed unions that are only stored are inductive types.
    - An instant produced by [new Date().toISOString()] is kept as the
      instant itself (milliseconds), not as its ISO-8601 rendering.
    - An [async] function is a computation over the [World] that either
      returns or throws; [await] is sequencing. *)

From Stdlib Require Import ZArith Lia.
From stdpp Require Import base option list strings pretty gmap sorting.

Local Open Scope Z_scope.

(** ** Type declarations *)

Inductive UserRole := Housekeeping | Supervisor | Engineering | Manager.

(** [RoomStatus] and [WorkLog['task_type']] are string literal unions. *)
Abbreviation RoomStatus := string (only parsing).
Abbreviation TaskType := string (only parsing).
Abbreviation Timestamp := Z (only parsing).

Record Room := mkRoom {
  id : string;
  room_number : string;
  building : string;
  floor : Z;
  status : RoomStatus;
  room_type : string;
  last_updated : Timestamp;
  assigned_to : option string;
  current_task : option string;
  notes : option string;
  is_vip : option bool;
  guest_name : option string
}.

Record Profile := mkProfile {
  profile_id : string;
  full_name : string;
  role : UserRole
}.

Inductive WorkLogStatus := InProgress | Paused | Completed.

(** A row of the [work_logs] table, with the columns the helpers write. *)
Record WorkLog := mkWorkLog {
  wl_id : string;
  wl_room_number : string;
  wl_staff_id : string;
  wl_task_type : TaskType;
  wl_start_time : Timestamp;
  wl_pause_time : option Timestamp;
  wl_end_time : option Timestamp;
  wl_total_duration : option Z;
  wl_description : option string;
  wl_status : WorkLogStatus
}.

(** [Omit<AuditLog, 'id'>], the value handed to [createAuditLog]. *)
Record AuditLog := mkAuditLog {
  al_room_number : string;
  changed_by : string;
  changer_name : option string;
  changer_role : option UserRole;
  from_status : RoomStatus;
  to_status : RoomStatus;
  al_timestamp : Timestamp;
  al_notes : option string
}.

Record TimerState := mkTimer {
  isRunning : bool;
  startTime : option Z;
  elapsedTime : Z;
  currentLogId : option string;
  roomNumber : option string;
  taskType : option TaskType
}.

Inductive NotificationType := info | success | warning | error.

Record Notification := mkNotification {
  n_id : string;
  n_title : string;
  n_message : string;
  n_type : NotificationType;
  n_timestamp : Timestamp;
  n_read : bool
}.

(** [Omit<Notification, 'id' | 'timestamp' | 'read'>]. *)
Record NotificationInput := mkInput {
  title : string;
  message : string;
  type : NotificationType
}.

(** [Partial<Room>]: a field that is present overrides the room's. *)
Record RoomUpdates := mkUpdates {
  u_id : option string;
  u_room_number : option string;
  u_building : option string;
  u_floor : option Z;
  u_status : option RoomStatus;
  u_room_type : option string;
  u_last_updated : option Timestamp;
  u_assigned_to : option string;
  u_current_task : option string;
  u_notes : option string;
  u_is_vip : option bool;
  u_guest_name : option string
}.

(** [{ ...r, ...updates }] *)
Definition spread (r : Room) (u : RoomUpdates) : Room :=
  {| id := default (id r) (u_id u);
     room_number := default (room_number r) (u_room_number u);
     building := default (building r) (u_building u);
     floor := default (floor r) (u_floor u);
     status := default (status r) (u_status u);
     room_type := default (room_type r) (u_room_type u);
     last_updated := default (last_updated r) (u_last_updated u);
     assigned_to := from_option Some (assigned_to r) (u_assigned_to u);
     current_task := from_option Some (current_task r) (u_current_task u);
     notes := from_option Some (notes r) (u_notes u);
     is_vip := from_option Some (is_vip r) (u_is_vip u);
     guest_name := from_option Some (guest_name r) (u_guest_name u) |}.

(** [rooms.map(r => r.id === roomId ? { ...r, ...updates } : r)], and the
    effect of [update(updates).eq('id', roomId)] on the [rooms] table. *)
Definition patch_rooms (roomId : string) (updates : RoomUpdates)
    (rs : list Room) : list Room :=
  (fun r => if decide (id r = roomId) then spread r updates else r) <$> rs.

(** [{ status, last_updated }] *)
Definition status_updates (status0 : RoomStatus) (now : Timestamp)
    : RoomUpdates :=
  {| u_id := None; u_room_number := None; u_building := None;
     u_floor := None; u_status := Some status0; u_room_type := None;
     u_last_updated := Some now; u_assigned_to := None;
     u_current_task := None; u_notes := None; u_is_vip := None;
     u_guest_name := None |}.

(** [updates.assigned_to = assignedTo] *)
Definition set_assigned_to (assignedTo : option string) (u : RoomUpdates)
    : RoomUpdates :=
  {| u_id := u_id u; u_room_number := u_room_number u;
     u_building := u_building u; u_floor := u_floor u;
     u_status := u_status u; u_room_type := u_room_type u;
     u_last_updated := u_last_updated u; u_assigned_to := assignedTo;
     u_current_task := u_current_task u; u_notes := u_notes u;
     u_is_vip := u_is_vip u; u_guest_name := u_guest_name u |}.

(** JavaScript truthiness of [string | null] and [number | null]. *)
Definition truthy_string (o : option string) : bool :=
  match o with
  | Some s => negb (String.eqb s "")
  | None => false
  end.

Definition truthy_number (o : option Z) : bool :=
  match o with
  | Some n => negb (n =? 0)
  | None => false
  end.

(** ** The store ([useAppStore]) *)

Record AppState := mkApp {
  currentUser : option Profile;
  currentRole : option UserRole;
  rooms : list Room;
  selectedRoom : option Room;
  timer : TimerState;
  notifications : list Notification;
  isLoading : bool
}.

Definition with_rooms (rs : list Room) (s : AppState) : AppState :=
  {| currentUser := currentUser s; currentRole := currentRole s;
     rooms := rs; selectedRoom := selectedRoom s; timer := timer s;
     notifications := notifications s; isLoading := isLoading s |}.

Definition with_timer (t : TimerState) (s : AppState) : AppState :=
  {| currentUser := currentUser s; currentRole := currentRole s;
     rooms := rooms s; selectedRoom := selectedRoom s; timer := t;
     notifications := notifications s; isLoading := isLoading s |}.

Definition with_notifications (ns : list Notification) (s : AppState) : AppState :=
  {| currentUser := currentUser s; currentRole := currentRole s;
     rooms := rooms s; selectedRoom := selectedRoom s; timer := timer s;
     notifications := ns; isLoading := isLoading s |}.

Module Store.

Definition initial_timer : TimerState :=
  {| isRunning := false; startTime := None; elapsedTime := 0;
     currentLogId := None; roomNumber := None; taskType := None |}.

Definition initial : AppState :=
  {| currentUser := None; currentRole := None; rooms := [];
     selectedRoom := None; timer := initial_timer;
     notifications := []; isLoading := false |}.

Definition setRooms (rs : list Room) (s : AppState) : AppState :=
  with_rooms rs s.

Definition updateRoom (roomId : string) (updates : RoomUpdates)
    (s : AppState) : AppState :=
  with_rooms (patch_rooms roomId updates (rooms s)) s.

(** [now] is the value of [Date.now()] read by the action. *)
Definition startTimer (now : Z) (logId roomNumber0 : string)
    (taskType0 : TaskType) (s : AppState) : AppState :=
  with_timer
    {| isRunning := true; startTime := Some now; elapsedTime := 0;
       currentLogId := Some logId; roomNumber := Some roomNumber0;
       taskType := Some taskType0 |} s.

Definition pauseTimer (s : AppState) : AppState :=
  with_timer
    {| isRunning := false; startTime := None;
       elapsedTime := elapsedTime (timer s);
       currentLogId := currentLogId (timer s);
       roomNumber := roomNumber (timer s);
       taskType := taskType (timer s) |} s.

Definition resumeTimer (now : Z) (s : AppState) : AppState :=
  with_timer
    {| isRunning := true; startTime := Some now;
       elapsedTime := elapsedTime (timer s);
       currentLogId := currentLogId (timer s);
       roomNumber := roomNumber (timer s);
       taskType := taskType (timer s) |} s.

Definition stopTimer (s : AppState) : AppState :=
  with_timer
    {| isRunning := false; startTime := None;
       elapsedTime := elapsedTime (timer s);
       currentLogId := None; roomNumber := None; taskType := None |} s.

Definition resetTimer (s : AppState) : AppState :=
  with_timer initial_timer s.

(** [Math.floor((now - startTime) / 1000)] on integers is [Z.div]. *)
Definition tick (now : Z) (s : AppState) : AppState :=
  if negb (isRunning (timer s)) || negb (truthy_number (startTime (timer s)))
  then s
  else
    let delta := (now - default 0 (startTime (timer s))) / 1000 in
    with_timer
      {| isRunning := isRunning (timer s); startTime := Some now;
         elapsedTime := elapsedTime (timer s) + delta;
         currentLogId := currentLogId (timer s);
         roomNumber := roomNumber (timer s);
         taskType := taskType (timer s) |} s.

(** [rnd] is [Math.random().toString(36).substr(2, 9)], [now] the instant
    of [new Date()]; [.slice(0, 50)] keeps the 50 most recent. *)
Definition addNotification (rnd : string) (now : Z)
    (n : NotificationInput) (s : AppState) : AppState :=
  with_notifications
    (take 50
       ({| n_id := rnd; n_title := title n; n_message := message n;
           n_type := type n; n_timestamp := now; n_read := false |}
          :: notifications s)) s.

(** The remaining store actions. *)

Definition setCurrentUser (user : option Profile) (s : AppState) : AppState :=
  {| currentUser := user; currentRole := currentRole s;
     rooms := rooms s; selectedRoom := selectedRoom s; timer := timer s;
     notifications := notifications s; isLoading := isLoading s |}.

Definition setCurrentRole (role0 : option UserRole) (s : AppState)
    : AppState :=
  {| currentUser := currentUser s; currentRole := role0;
     rooms := rooms s; selectedRoom := selectedRoom s; timer := timer s;
     notifications := notifications s; isLoading := isLoading s |}.

Definition setSelectedRoom (room : option Room) (s : AppState) : AppState :=
  {| currentUser := currentUser s; currentRole := currentRole s;
     rooms := rooms s; selectedRoom := room; timer := timer s;
     notifications := notifications s; isLoading := isLoading s |}.

Definition setIsLoading (loading : bool) (s : AppState) : AppState :=
  {| currentUser := currentUser s; currentRole := currentRole s;
     rooms := rooms s; selectedRoom := selectedRoom s; timer := timer s;
     notifications := notifications s; isLoading := loading |}.

(** [n.id === id ? { ...n, read: true } : n] *)
Definition mark_read (id0 : string) (n : Notification) : Notification :=
  if decide (n_id n = id0)
  then {| n_id := n_id n; n_title := n_title n; n_message := n_message n;
          n_type := n_type n; n_timestamp := n_timestamp n; n_read := true |}
  else n.

Definition markNotificationRead (id0 : string) (s : AppState) : AppState :=
  with_notifications (mark_read id0 <$> notifications s) s.

Definition clearNotifications (s : AppState) : AppState :=
  with_notifications [] s.

End Store.

(** ** The timer interval ([startTimerInterval], [stopTimerInterval])

    The module keeps one handle, [timerInterval].  The platform's timers
    are the list of live interval ids and the next id [setInterval] hands
    out; an id is a positive number, so a handle that is set is truthy
    exactly when it is not 0. *)

Module TimerInterval.

Record State := mkState {
  timerInterval : option nat;
  live : list nat;
  next_id : nat
}.

Definition initial : State :=
  {| timerInterval := None; live := []; next_id := 1 |}.

Definition truthy_handle (h : option nat) : bool :=
  match h with
  | Some n => negb (Nat.eqb n 0)
  | None => false
  end.

Definition setInterval (t : State) : nat * State :=
  (next_id t,
   {| timerInterval := timerInterval t; live := live t ++ [next_id t];
      next_id := S (next_id t) |}).

Definition clearInterval (h : option nat) (t : State) : State :=
  {| timerInterval := timerInterval t;
     live := filter (fun i => Some i <> h) (live t);
     next_id := next_id t |}.

Definition startTimerInterval (t : State) : State :=
  let t1 :=
    if truthy_handle (timerInterval t) then clearInterval (timerInterval t) t
    else t in
  let (i, t2) := setInterval t1 in
  {| timerInterval := Some i; live := live t2; next_id := next_id t2 |}.

Definition stopTimerInterval (t : State) : State :=
  if truthy_handle (timerInterval t) then
    let t1 := clearInterval (timerInterval t) t in
    {| timerInterval := None; live := live t1; next_id := next_id t1 |}
  else t.

Inductive Call := Start | Stop.

Definition call (t : State) (c : Call) : State :=
  match c with
  | Start => startTimerInterval t
  | Stop => stopTimerInterval t
  end.

End TimerInterval.

(** ** The application's login and logout handlers *)

Definition handleRoleSelect (user : Profile) (s : AppState) : AppState :=
  Store.setCurrentRole (Some (role user)) (Store.setCurrentUser (Some user) s).

Definition handleLogout (s : AppState) : AppState :=
  Store.setCurrentRole None (Store.setCurrentUser None s).

(** ** The world the hook runs in

    Besides the store, the hook talks to the database, reads the clock and
    draws random ids.  What the outside answers is fixed by an [Env]; the
    [World] counts how far each answer stream has been consumed. *)

Record Env := mkEnv {
  clock : nat -> Z;                 (* successive readings of the clock *)
  random : nat -> string;           (* successive random notification ids *)
  db_error : nat -> option string;  (* n-th request: its error message, if any *)
  generated_id : nat -> string      (* id given to the n-th [work_logs] row *)
}.

Record World := mkWorld {
  env : Env;
  clock_reads : nat;
  random_draws : nat;
  requests : nat;
  app : AppState;
  rooms_table : list Room;
  work_logs : list WorkLog;
  audit_logs : list AuditLog
}.

Definition with_app (a : AppState) (w : World) : World :=
  {| env := env w; clock_reads := clock_reads w;
     random_draws := random_draws w; requests := requests w; app := a;
     rooms_table := rooms_table w; work_logs := work_logs w;
     audit_logs := audit_logs w |}.

Definition with_rooms_table (t : list Room) (w : World) : World :=
  {| env := env w; clock_reads := clock_reads w;
     random_draws := random_draws w; requests := requests w; app := app w;
     rooms_table := t; work_logs := work_logs w;
     audit_logs := audit_logs w |}.

Definition with_work_logs (t : list WorkLog) (w : World) : World :=
  {| env := env w; clock_reads := clock_reads w;
     random_draws := random_draws w; requests := requests w; app := app w;
     rooms_table := rooms_table w; work_logs := t;
     audit_logs := audit_logs w |}.

Definition with_audit_logs (t : list AuditLog) (w : World) : World :=
  {| env := env w; clock_reads := clock_reads w;
     random_draws := random_draws w; requests := requests w; app := app w;
     rooms_table := rooms_table w; work_logs := work_logs w;
     audit_logs := t |}.

(** ** Computations that return or throw *)

Inductive Completion (A : Type) :=
| Return (a : A)
| Throw (message : string).
Arguments Return {A} a.
Arguments Throw {A} message.

Definition M (A : Type) : Type := World -> Completion A * World.

Definition ret {A} (a : A) : M A := fun w => (Return a, w).

Definition throw {A} (message0 : string) : M A := fun w => (Throw message0, w).

Definition bind {A B} (m : M A) (k : A -> M B) : M B :=
  fun w =>
    match m w with
    | (Return a, w') => k a w'
    | (Throw e, w') => (Throw e, w')
    end.

(** [try { body } catch (err) { handler }] *)
Definition try_catch {A} (body : M A) (handler : string -> M A) : M A :=
  fun w =>
    match body w with
    | (Return a, w') => (Return a, w')
    | (Throw e, w') => handler e w'
    end.

Declare Scope js_scope.
Delimit Scope js_scope with js.
Notation "x <- m ;; k" := (bind m (fun x => k))
  (at level 100, m at next level, right associativity) : js_scope.
Notation "m ;; k" := (bind m (fun _ => k))
  (at level 100, right associativity) : js_scope.
Local Open Scope js_scope.

(** How a computation completes from [w], and the world it leaves. *)
Definition result {A} (m : M A) (w : World) : Completion A := fst (m w).
Definition after {A} (m : M A) (w : World) : World := snd (m w).

(** [Date.now()] and the instant of [new Date()]. *)
Definition Date_now : M Z :=
  fun w =>
    (Return (clock (env w) (clock_reads w)),
     {| env := env w; clock_reads := S (clock_reads w);
        random_draws := random_draws w; requests := requests w;
        app := app w; rooms_table := rooms_table w;
        work_logs := work_logs w; audit_logs := audit_logs w |}).

Definition Math_random_id : M string :=
  fun w =>
    (Return (random (env w) (random_draws w)),
     {| env := env w; clock_reads := clock_reads w;
        random_draws := S (random_draws w); requests := requests w;
        app := app w; rooms_table := rooms_table w;
        work_logs := work_logs w; audit_logs := audit_logs w |}).

(** One round trip to the database; [if (error) throw error]. *)
Definition request : M unit :=
  fun w =>
    let w' :=
      {| env := env w; clock_reads := clock_reads w;
         random_draws := random_draws w; requests := S (requests w);
         app := app w; rooms_table := rooms_table w;
         work_logs := work_logs w; audit_logs := audit_logs w |} in
    match db_error (env w) (requests w) with
    | Some e => (Throw e, w')
    | None => (Return tt, w')
    end.

(** A store action: [set((state) => ...)]. *)
Definition set (f : AppState -> AppState) : M unit :=
  fun w => (Return tt, with_app (f (app w)) w).

(** ** The Supabase helpers

    [.update(...).eq('id', x)] rewrites every row whose id is [x] (none, if
    there is no such row); [.insert(...)] appends a row.  A request that
    fails leaves its table as it was. *)

Module Supabase.

Definition updateRoomStatus (roomId : string) (status0 : RoomStatus)
    (assignedTo : option string) : M unit :=
  now <- Date_now ;;
  let updates := status_updates status0 now in
  let updates :=
    if truthy_string assignedTo then set_assigned_to assignedTo updates
    else updates in
  request ;;
  fun w =>
    (Return tt,
     with_rooms_table (patch_rooms roomId updates (rooms_table w)) w).

Definition createWorkLog (roomNumber0 staffId : string)
    (taskType0 : TaskType) (description : option string) : M string :=
  now <- Date_now ;;
  request ;;
  fun w =>
    let new_id := generated_id (env w) (length (work_logs w)) in
    (Return new_id,
     with_work_logs
       (work_logs w ++
          [ {| wl_id := new_id; wl_room_number := roomNumber0;
               wl_staff_id := staffId; wl_task_type := taskType0;
               wl_start_time := now; wl_pause_time := None;
               wl_end_time := None; wl_total_duration := None;
               wl_description := description;
               wl_status := InProgress |} ]) w).

Definition update_work_log (logId : string) (f : WorkLog -> WorkLog) : M unit :=
  fun w =>
    (Return tt,
     with_work_logs
       ((fun l => if decide (wl_id l = logId) then f l else l)
          <$> work_logs w) w).

Definition pauseWorkLog (logId : string) (elapsedSeconds : Z) : M unit :=
  now <- Date_now ;;
  request ;;
  update_work_log logId (fun l =>
    {| wl_id := wl_id l; wl_room_number := wl_room_number l;
       wl_staff_id := wl_staff_id l; wl_task_type := wl_task_type l;
       wl_start_time := wl_start_time l; wl_pause_time := Some now;
       wl_end_time := wl_end_time l;
       wl_total_duration := Some elapsedSeconds;
       wl_description := wl_description l; wl_status := Paused |}).

Definition resumeWorkLog (logId : string) : M unit :=
  request ;;
  update_work_log logId (fun l =>
    {| wl_id := wl_id l; wl_room_number := wl_room_number l;
       wl_staff_id := wl_staff_id l; wl_task_type := wl_task_type l;
       wl_start_time := wl_start_time l; wl_pause_time := None;
       wl_end_time := wl_end_time l;
       wl_total_duration := wl_total_duration l;
       wl_description := wl_description l; wl_status := InProgress |}).

Definition finishWorkLog (logId : string) (totalSeconds : Z) : M unit :=
  now <- Date_now ;;
  request ;;
  update_work_log logId (fun l =>
    {| wl_id := wl_id l; wl_room_number := wl_room_number l;
       wl_staff_id := wl_staff_id l; wl_task_type := wl_task_type l;
       wl_start_time := wl_start_time l; wl_pause_time := wl_pause_time l;
       wl_end_time := Some now;
       wl_total_duration := Some totalSeconds;
       wl_description := wl_description l; wl_status := Completed |}).

Definition createAuditLog (log : AuditLog) : M unit :=
  request ;;
  fun w => (Return tt, with_audit_logs (audit_logs w ++ [log]) w).

End Supabase.

(** ** [formatDuration]

    [%] is the remainder that takes the sign of the dividend ([Z.rem]);
    [Math.floor] of a quotient by a positive integer is [Z.div]. *)

Definition padStart2 (s : string) : string :=
  Nat.iter (2 - String.length s)%nat (String.append "0") s.

Definition formatDuration (seconds : Z) : string :=
  let hours := seconds / 3600 in
  let minutes := Z.rem seconds 3600 / 60 in
  let secs := Z.rem seconds 60 in
  padStart2 (pretty hours) +:+ ":" +:+ padStart2 (pretty minutes)
    +:+ ":" +:+ padStart2 (pretty secs).

(** A [string | null] inside a template literal. *)
Definition interpolate (o : option string) : string := default "null" o.

(** ** Property lookup on an object literal

    An object created by a literal has [Object.prototype] as its prototype:
    [obj[key]] yields the object's own property of that name if it has one,
    else the member of [Object.prototype] of that name if there is one, else
    [undefined]. *)

(** The names of the members of [Object.prototype]. *)
Definition Object_prototype_names : list string :=
  ["constructor"; "__defineGetter__"; "__defineSetter__"; "hasOwnProperty";
   "__lookupGetter__"; "__lookupSetter__"; "isPrototypeOf";
   "propertyIsEnumerable"; "toString"; "valueOf"; "__proto__";
   "toLocaleString"].

(** What a lookup in the transition table can yield: an array of statuses
    (a row of the table), a member of [Object.prototype] (a function, or
    the prototype object itself for [__proto__]), or [undefined]. *)
Inductive JSValue :=
| Array (l : list RoomStatus)
| Prototype_member (name : string)
| undefined.

#[global] Instance JSValue_eq_dec : EqDecision JSValue.
Proof. solve_decision. Defined.

(** [obj[key]] for an object literal with the own properties [own]. *)
Definition Object_get (own : gmap string (list RoomStatus)) (key : string)
    : JSValue :=
  match own !! key with
  | Some l => Array l
  | None =>
      if decide (key ∈ Object_prototype_names) then Prototype_member key
      else undefined
  end.

(** [a || b]: arrays, functions and objects are truthy, [undefined] is
    not. *)
Definition or_else (a b : JSValue) : JSValue :=
  match a with
  | undefined => b
  | _ => a
  end.

(** A status is among the statuses of a value when the value is an array
    that holds it. *)
#[global] Instance JSValue_elem_of : ElemOf RoomStatus JSValue :=
  fun x v =>
    match v with
    | Array l => x ∈ l
    | _ => False
    end.

#[global] Instance JSValue_elem_of_dec (x : RoomStatus) (v : JSValue) :
  Decision (x ∈ v).
Proof. destruct v; unfold elem_of, JSValue_elem_of; apply _. Defined.

(** ** The room modal's transition table *)

(** The own properties of the [statusWorkflow] object literal. *)
Definition statusWorkflow : gmap string (list RoomStatus) :=
  <["Dirty" := ["Check-out Inspected"; "Cleaning"; "Out of Order"] ]>
  (<["Check-out Inspected" := ["Cleaning"; "Out of Order"] ]>
  (<["Cleaning" := ["Vacant Clean"; "Dirty"] ]>
  (<["Vacant Clean" := ["Vacant Clean Inspected"; "Dirty"; "Occupied"] ]>
  (<["Vacant Clean Inspected" := ["Occupied"; "Dirty"] ]>
  (<["Occupied" := ["Dirty"; "Out of Order"] ]>
  (<["Out of Order" := ["Dirty"] ]> ∅)))))).

(** [statusWorkflow[room.status] || []] *)
Definition availableStatuses (status0 : RoomStatus) : JSValue :=
  or_else (Object_get statusWorkflow status0) (Array []).

(** ** The [useRooms] hook

    A render of the hook reads [currentUser] and [timer] from the store and
    returns closures over these two values; the closures call the store's
    actions, which work on the store as it is when they run.  The section
    variables are the values one render captured. *)

Section useRooms.

Variable currentUser0 : option Profile.
Variable timer0 : TimerState.

Definition addNotification (n : NotificationInput) : M unit :=
  rnd <- Math_random_id ;;
  now <- Date_now ;;
  set (Store.addNotification rnd now n).

Definition updateRoom (roomId : string) (updates : RoomUpdates) : M unit :=
  set (Store.updateRoom roomId updates).

Definition startTimer (logId roomNumber0 : string) (taskType0 : TaskType)
    : M unit :=
  now <- Date_now ;;
  set (Store.startTimer now logId roomNumber0 taskType0).

Definition pauseTimer : M unit := set Store.pauseTimer.

Definition resumeTimer : M unit :=
  now <- Date_now ;;
  set (Store.resumeTimer now).

Definition stopTimer : M unit := set Store.stopTimer.

Definition resetTimer : M unit := set Store.resetTimer.

Definition changeRoomStatus (room : Room) (newStatus : RoomStatus)
    (notes0 : option string) : M unit :=
  match currentUser0 with
  | None =>
      addNotification
        {| title := "Authentication required";
           message := "Please log in to change room status";
           type := error |}
  | Some user =>
      try_catch
        (let oldStatus := status room in
         Supabase.updateRoomStatus (id room) newStatus None ;;
         timestamp <- Date_now ;;
         Supabase.createAuditLog
           {| al_room_number := room_number room;
              changed_by := profile_id user;
              changer_name := Some (full_name user);
              changer_role := Some (role user);
              from_status := oldStatus;
              to_status := newStatus;
              al_timestamp := timestamp;
              al_notes := notes0 |} ;;
         now <- Date_now ;;
         updateRoom (id room) (status_updates newStatus now) ;;
         addNotification
           {| title := "Status updated";
              message := "Room " +:+ room_number room +:+ " changed from "
                           +:+ oldStatus +:+ " to " +:+ newStatus;
              type := success |})
        (fun err =>
           addNotification
             {| title := "Error updating status"; message := err;
                type := error |})
  end.

(** The status a started task implies for the room. *)
Definition startStatus (room : Room) (taskType0 : TaskType) : RoomStatus :=
  if decide (taskType0 = "Cleaning") then "Cleaning"
  else if decide (taskType0 = "Repair") then "Out of Order"
  else if decide (taskType0 = "Maintenance") then "Out of Order"
  else status room.

Definition startTask (room : Room) (taskType0 : TaskType)
    : M (option string) :=
  match currentUser0 with
  | None => ret None
  | Some user =>
      try_catch
        (logId <- Supabase.createWorkLog (room_number room)
                    (profile_id user) taskType0
                    (Some (taskType0 +:+ " started for room "
                             +:+ room_number room)) ;;
         startTimer logId (room_number room) taskType0 ;;
         let newStatus := startStatus room taskType0 in
         (if decide (newStatus = status room) then ret tt
          else changeRoomStatus room newStatus
                 (Some (taskType0 +:+ " started"))) ;;
         addNotification
           {| title := "Task started";
              message := taskType0 +:+ " started for room "
                           +:+ room_number room;
              type := success |} ;;
         ret (Some logId))
        (fun err =>
           addNotification
             {| title := "Error starting task"; message := err;
                type := error |} ;;
           ret None)
  end.

Definition pauseTask : M unit :=
  if truthy_string (currentLogId timer0) then
    try_catch
      (Supabase.pauseWorkLog (default "" (currentLogId timer0))
         (elapsedTime timer0) ;;
       pauseTimer ;;
       addNotification
         {| title := "Task paused";
            message := "Task paused at "
                         +:+ formatDuration (elapsedTime timer0);
            type := info |})
      (fun err =>
         addNotification
           {| title := "Error pausing task"; message := err;
              type := error |})
  else ret tt.

Definition resumeTask : M unit :=
  if truthy_string (currentLogId timer0) then
    try_catch
      (Supabase.resumeWorkLog (default "" (currentLogId timer0)) ;;
       resumeTimer ;;
       addNotification
         {| title := "Task resumed"; message := "Task timer resumed";
            type := info |})
      (fun err =>
         addNotification
           {| title := "Error resuming task"; message := err;
              type := error |})
  else ret tt.

(** The status [finishTask] moves the room to: the [nextStatus] argument
    when it is truthy, else the one the timer's task type implies. *)
Definition finalStatus (room : Room) (nextStatus : option RoomStatus)
    : RoomStatus :=
  if truthy_string nextStatus then default "" nextStatus
  else if decide (taskType timer0 = Some "Cleaning") then "Vacant Clean"
  else if decide (taskType timer0 = Some "Inspection")
       then "Vacant Clean Inspected"
  else if decide (taskType timer0 = Some "Repair") then "Dirty"
  else if decide (taskType timer0 = Some "Maintenance") then "Dirty"
  else status room.

Definition finishTask (room : Room) (nextStatus : option RoomStatus)
    : M unit :=
  if negb (truthy_string (currentLogId timer0))
     || negb (bool_decide (is_Some currentUser0))
  then ret tt
  else
    try_catch
      (Supabase.finishWorkLog (default "" (currentLogId timer0))
         (elapsedTime timer0) ;;
       let finalStatus0 := finalStatus room nextStatus in
       (if decide (finalStatus0 = status room) then ret tt
        else changeRoomStatus room finalStatus0
               (Some (interpolate (taskType timer0) +:+ " completed"))) ;;
       addNotification
         {| title := "Task completed";
            message := interpolate (taskType timer0) +:+ " completed for room "
                         +:+ room_number room +:+ " in "
                         +:+ formatDuration (elapsedTime timer0);
            type := success |} ;;
       stopTimer ;;
       resetTimer)
      (fun err =>
         addNotification
           {| title := "Error completing task"; message := err;
              type := error |}).

End useRooms.

(** Calling a hook function from a fresh render: the closure holds the
    store's [currentUser] and [timer] as they are when the call is made. *)

Module Rendered.

Definition changeRoomStatus (room : Room) (newStatus : RoomStatus)
    (notes0 : option string) : M unit :=
  fun w => changeRoomStatus (currentUser (app w)) room newStatus notes0 w.

Definition startTask (room : Room) (taskType0 : TaskType)
    : M (option string) :=
  fun w => startTask (currentUser (app w)) room taskType0 w.

Definition pauseTask : M unit :=
  fun w => pauseTask (timer (app w)) w.

Definition resumeTask : M unit :=
  fun w => resumeTask (timer (app w)) w.

Definition finishTask (room : Room) (nextStatus : option RoomStatus)
    : M unit :=
  fun w =>
    finishTask (currentUser (app w)) (timer (app w)) room nextStatus w.

End Rendered.

(** ** The hook's selectors over the store's rooms *)

Section selectors.

Variable rooms0 : list Room.

Definition getRoomsByStatus (status0 : RoomStatus) : list Room :=
  filter (fun r => status r = status0) rooms0.

(** [floor === undefined || r.floor === floor] *)
Definition getRoomsByBuildingFloor (building0 : string) (floor0 : option Z)
    : list Room :=
  filter (fun r => building r = building0
                   /\ (floor0 = None \/ Some (floor r) = floor0)) rooms0.

(** [Array.from(new Set(xs))]: the values in the order of their first
    occurrence. *)
Definition Set_from (xs : list string) : list string :=
  foldl (fun seen x => if decide (x ∈ seen) then seen else seen ++ [x]) [] xs.

(** [.sort()] without a comparator orders strings by their code units. *)
Definition buildings : list string :=
  merge_sort String.le (Set_from (building <$> rooms0)).

(** The statistics panel of the 3D dashboard. *)
Record Stats := mkStats {
  total : nat; dirty : nat; cleaning : nat; vacantClean : nat;
  occupied : nat; ooo : nat
}.

Definition StatsPanel_stats : Stats :=
  {| total := length rooms0;
     dirty := length (filter (fun r => status r = "Dirty") rooms0);
     cleaning := length (filter (fun r => status r = "Cleaning") rooms0);
     vacantClean :=
       length (filter (fun r => status r = "Vacant Clean") rooms0);
     occupied := length (filter (fun r => status r = "Occupied") rooms0);
     ooo := length (filter (fun r => status r = "Out of Order") rooms0) |}.

(** The manager dashboard's [roomsByStatus], the object that
    [rooms.reduce((acc, room) => { acc[room.status] = (acc[room.status] || 0)
    + 1; return acc; }, {})] builds.  The accumulator is an object literal:
    its own properties hold numbers or, once a member of
    [Object.prototype] was read, strings. *)
Inductive Tally :=
| Number (n : nat)
| Text (s : string).

(** The text the engine gives for a member of [Object.prototype] in a
    string concatenation (the source text of a native function is the
    engine's choice). *)
Variable member_text : string -> string.

(** [(acc[key] || 0) + 1]: a number is counted up ([0] is falsy and gives
    [0 + 1]); a non-empty string, and an inherited member, which is an
    object, are truthy and [+ 1] appends ["1"] to their text; the empty
    string and [undefined] give [0 + 1]. *)
Definition count_up (acc : gmap string Tally) (key : string) : Tally :=
  match acc !! key with
  | Some (Number n) => Number (n + 1)
  | Some (Text s) => if decide (s = "") then Number 1 else Text (s +:+ "1")
  | None =>
      if decide (key ∈ Object_prototype_names)
      then Text (member_text key +:+ "1")
      else Number 1
  end.

(** [acc[key] = v]: an own property is written, or created since the
    members of [Object.prototype] are writable data properties, except for
    [__proto__], an accessor whose setter ignores a value that is neither
    an object nor [null]. *)
Definition assign (acc : gmap string Tally) (key : string) (v : Tally)
    : gmap string Tally :=
  if decide (key = "__proto__") then acc else <[key := v]> acc.

Definition roomsByStatus : gmap string Tally :=
  foldl (fun acc room =>
           assign acc (status room) (count_up acc (status room)))
    ∅ rooms0.

End selectors.

(** ** The room modal's flags and task buttons *)

#[global] Instance UserRole_eq_dec : EqDecision UserRole.
Proof. solve_decision. Defined.

Section RoomModal.

Variable currentRole0 : option UserRole.
Variable timer0 : TimerState.
Variable room : Room.

Definition isTimerActive : bool :=
  isRunning timer0
  && bool_decide (roomNumber timer0 = Some (room_number room)).

Definition isTimerPaused : bool :=
  negb (isRunning timer0) && truthy_string (currentLogId timer0)
  && bool_decide (roomNumber timer0 = Some (room_number room)).

Definition hasActiveTask : bool :=
  bool_decide (roomNumber timer0 = Some (room_number room)).

Definition canClean : bool :=
  bool_decide (currentRole0 = Some Housekeeping)
  && bool_decide (status room ∈ ["Dirty"; "Check-out Inspected"]).

Definition canInspect : bool :=
  bool_decide (currentRole0 = Some Supervisor)
  && bool_decide (status room ∈ ["Vacant Clean"; "Check-out Inspected"]).

Definition canRepair : bool :=
  bool_decide (currentRole0 = Some Engineering)
  && bool_decide (status room = "Out of Order").

Definition canManage : bool := bool_decide (currentRole0 = Some Manager).

(** The task types whose start button the actions tab renders. *)
Definition startButtons : list TaskType :=
  (if canClean && negb hasActiveTask then ["Cleaning"] else [])
  ++ (if canInspect && negb hasActiveTask then ["Inspection"] else [])
  ++ (if canRepair && negb hasActiveTask then ["Repair"] else []).

(** Which of the pause and resume buttons the timer display renders. *)
Inductive TimerButton := PauseButton | ResumeButton.

Definition timerButton : option TimerButton :=
  if hasActiveTask then
    if isTimerActive then Some PauseButton
    else if isTimerPaused then Some ResumeButton
    else None
  else None.

End RoomModal.

(** The supervisor's inspection form:
    [inspectionScore >= 80 ? 'Vacant Clean Inspected' : 'Dirty']. *)
Definition status_after (inspectionScore : Z) : RoomStatus :=
  if 80 <=? inspectionScore then "Vacant Clean Inspected" else "Dirty".

(** ** Sample data (the application's demo users and rooms) *)

Module Demo.

Definition siti : Profile :=
  {| profile_id := "1"; full_name := "Siti Rahayu"; role := Housekeeping |}.

Definition demoRoom (id0 number0 building0 : string) (floor0 : Z)
    (status0 : RoomStatus) (room_type0 : string)
    (assigned : option string) : Room :=
  {| id := id0; room_number := number0; building := building0;
     floor := floor0; status := status0; room_type := room_type0;
     last_updated := 1700000000000; assigned_to := assigned;
     current_task := None; notes := None; is_vip := None;
     guest_name := None |}.

Definition A101 := demoRoom "1" "A101" "Building A" 1 "Dirty" "Deluxe" None.
Definition A104 :=
  demoRoom "4" "A104" "Building A" 1 "Cleaning" "Standard" (Some "1").
Definition B203 :=
  demoRoom "17" "B203" "Building B" 2 "Out of Order" "Villa" None.

Definition demoRooms : list Room := [A101; A104; B203].

Fixpoint failure_of (failing : list (nat * string)) (n : nat)
    : option string :=
  match failing with
  | [] => None
  | (k, e) :: rest => if Nat.eqb k n then Some e else failure_of rest n
  end.

(** A clock that advances one second per reading, and a database that
    answers every request except those listed in [failing]. *)
Definition demo_env (failing : list (nat * string)) : Env :=
  {| clock := fun n => 1700000000000 + 1000 * Z.of_nat n;
     random := fun n => Nat.iter n (String.append "x") "n";
     db_error := failure_of failing;
     generated_id := fun n => Nat.iter n (String.append "x") "log" |}.

Definition world (failing : list (nat * string)) (user : option Profile)
    (t : TimerState) : World :=
  {| env := demo_env failing; clock_reads := 0; random_draws := 0;
     requests := 0;
     app := {| currentUser := user; currentRole := role <$> user;
               rooms := demoRooms; selectedRoom := None; timer := t;
               notifications := []; isLoading := false |};
     rooms_table := demoRooms; work_logs := []; audit_logs := [] |}.

(** Siti is cleaning A104: the timer runs, 125 seconds accumulated, last
    re-based three seconds before the first clock reading of [world]. *)
Definition cleaning_A104 : TimerState :=
  {| isRunning := true; startTime := Some 1699999997000;
     elapsedTime := 125; currentLogId := Some "log";
     roomNumber := Some "A104"; taskType := Some "Cleaning" |}.

(** The world in which Siti is cleaning A104, with the task's work log. *)
Definition cleaning (failing : list (nat * string)) : World :=
  with_work_logs
    [ {| wl_id := "log"; wl_room_number := "A104"; wl_staff_id := "1";
         wl_task_type := "Cleaning"; wl_start_time := 1699999872000;
         wl_pause_time := None; wl_end_time := None;
         wl_total_duration := None;
         wl_description := Some "Cleaning started for room A104";
         wl_status := InProgress |} ]
    (world failing (Some siti) cleaning_A104).

(** The room as the dashboard hands it to the hook: the store's current
    copy of the room with that number. *)
Definition room_of (w : World) (number : string) : Room :=
  default A101 (head (filter (fun r => room_number r = number) (rooms (app w)))).

(** The interval's [tick()] calls at the given clock readings. *)
Definition ticking (nows : list Z) (w : World) : World :=
  with_app (foldl (fun s now => Store.tick now s) (app w) nows) w.

(** Siti cleans A101: start, two minutes of ticks, pause, resume, finish. *)
Definition cleaning_scenario : World :=
  let w1 := after (Rendered.startTask A101 "Cleaning")
              (world [] (Some siti) Store.initial_timer) in
  let w2 := ticking [1700000061000; 1700000126000] w1 in
  let w3 := after Rendered.pauseTask w2 in
  let w4 := after Rendered.resumeTask w3 in
  after (Rendered.finishTask (room_of w4 "A101") None) w4.

End Demo.


(** ** Vocabulary of the statements *)

(** The seven values of [RoomStatus]. *)
Definition RoomStatus_values : list RoomStatus :=
  ["Dirty"; "Check-out Inspected"; "Cleaning"; "Vacant Clean";
   "Vacant Clean Inspected"; "Occupied"; "Out of Order"].

(** The adjacency table as the specification prints it (section 4.1), row by
    row; a status that has no row has no successor. *)
Definition spec_legalNextStates (current : RoomStatus) : list RoomStatus :=
  if String.eqb current "Dirty"
  then ["Check-out Inspected"; "Cleaning"; "Out of Order"]
  else if String.eqb current "Check-out Inspected"
  then ["Cleaning"; "Out of Order"]
  else if String.eqb current "Cleaning" then ["Vacant Clean"; "Dirty"]
  else if String.eqb current "Vacant Clean"
  then ["Vacant Clean Inspected"; "Dirty"; "Occupied"]
  else if String.eqb current "Vacant Clean Inspected"
  then ["Occupied"; "Dirty"]
  else if String.eqb current "Occupied" then ["Dirty"; "Out of Order"]
  else if String.eqb current "Out of Order" then ["Dirty"]
  else [].

(** The next status as the specification words it for [finishTask]: the
    explicit status if supplied, else the one derived from the task type,
    else the room's current status. *)
Definition spec_nextStatus (explicit : option RoomStatus)
    (task : option TaskType) (current : RoomStatus) : RoomStatus :=
  match explicit, task with
  | Some s, _ => s
  | None, Some t =>
      if String.eqb t "Cleaning" then "Vacant Clean"
      else if String.eqb t "Inspection" then "Vacant Clean Inspected"
      else if String.eqb t "Repair" || String.eqb t "Maintenance" then "Dirty"
      else current
  | None, None => current
  end.

(** The store's timer actions, to speak of a session's history. *)
Inductive TimerAction :=
| StartTimer (now : Z) (logId roomNumber0 : string) (taskType0 : TaskType)
| PauseTimer
| ResumeTimer (now : Z)
| StopTimer
| ResetTimer
| Tick (now : Z).

Definition act (s : AppState) (a : TimerAction) : AppState :=
  match a with
  | StartTimer now logId roomNumber0 taskType0 =>
      Store.startTimer now logId roomNumber0 taskType0 s
  | PauseTimer => Store.pauseTimer s
  | ResumeTimer now => Store.resumeTimer now s
  | StopTimer => Store.stopTimer s
  | ResetTimer => Store.resetTimer s
  | Tick now => Store.tick now s
  end.

(** A timer that is not running has no start time. *)
Definition start_cleared (t : TimerState) : Prop :=
  isRunning t = false -> startTime t = None.

(** [ticks nows s]: [tick()] called once at each clock reading of [nows]. *)
Definition ticks (nows : list Z) (s : AppState) : AppState :=
  foldl (fun s now => Store.tick now s) s nows.

(** The elapsed time shown after each of these calls. *)
Fixpoint elapsed_trace (nows : list Z) (s : AppState) : list Z :=
  match nows with
  | [] => []
  | now :: rest =>
      elapsedTime (timer (Store.tick now s))
        :: elapsed_trace rest (Store.tick now s)
  end.

Fixpoint nondecreasing (l : list Z) : Prop :=
  match l with
  | a :: (b :: _) as rest => a <= b /\ nondecreasing rest
  | _ => True
  end.

(** The clock readings a running timer sees: its start time, then the
    readings of the ticks. *)
Definition readings (t : TimerState) (nows : list Z) : list Z :=
  match startTime t with
  | Some start => start :: nows
  | None => nows
  end.

(** The world in the middle of a [finishTask] that got past its guard and
    whose work log request succeeded: the work log is finished and the
    status change, if there is one to make, has been attempted. *)
Definition finishTask_midway (user : Profile) (t : TimerState) (room : Room)
    (nextStatus : option RoomStatus) (w : World) : World :=
  let w1 :=
    after (Supabase.finishWorkLog (default "" (currentLogId t))
             (elapsedTime t)) w in
  if decide (finalStatus t room nextStatus = status room) then w1
  else after (changeRoomStatus (Some user) room
                (finalStatus t room nextStatus)
                (Some (interpolate (taskType t) +:+ " completed"))) w1.

(** A call fails when its promise is rejected or when it reports an
    error notification, the two ways the hook has to report a failure. *)
Definition fails {A} (m : M A) (w : World) : Prop :=
  (exists e, result m w = Throw e)
  \/ (exists added n,
        notifications (app (after m w))
          = take 50 (added ++ notifications (app w))
        /\ n ∈ added /\ n_type n = error).

(** The world in the middle of a [startTask] whose work log request
    succeeded: the work log exists, the timer runs for it, and the status
    change the task implies, if any, has been attempted. *)
Definition startTask_midway (user : Profile) (room : Room)
    (taskType0 : TaskType) (w : World) : World :=
  let w1 :=
    after (startTimer (generated_id (env w) (length (work_logs w)))
             (room_number room) taskType0)
      (after (Supabase.createWorkLog (room_number room) (profile_id user)
                taskType0
                (Some (taskType0 +:+ " started for room "
                         +:+ room_number room))) w) in
  if decide (startStatus room taskType0 = status room) then w1
  else after (changeRoomStatus (Some user) room (startStatus room taskType0)
                (Some (taskType0 +:+ " started"))) w1.

(** The notification [addNotification] builds from its input. *)
Definition stamp (x : string * Z * NotificationInput) : Notification :=
  {| n_id := x.1.1; n_title := title x.2; n_message := message x.2;
     n_type := type x.2; n_timestamp := x.1.2; n_read := false |}.

(** [addNotification] called once for each input, in order. *)
Definition notify (inputs : list (string * Z * NotificationInput))
    (s : AppState) : AppState :=
  foldl (fun s x => Store.addNotification x.1.1 x.1.2 x.2 s) s inputs.

(** What a notification says, apart from its read flag. *)
Definition content (n : Notification)
    : string * string * string * NotificationType * Z :=
  (n_id n, n_title n, n_message n, n_type n, n_timestamp n).

(** The timer names a task completely or not at all. *)
Definition task_named (t : TimerState) : Prop :=
  (currentLogId t = None /\ roomNumber t = None /\ taskType t = None)
  \/ (is_Some (currentLogId t) /\ is_Some (roomNumber t)
      /\ is_Some (taskType t)).

(** A running timer belongs to a work log. *)
Definition running_has_log (t : TimerState) : Prop :=
  isRunning t = true -> is_Some (currentLogId t).

(** The interval's callback, [useAppStore.getState().tick()]: the clock is
    read only past the guard of [tick]. *)
Definition tick : M unit :=
  fun w =>
    if negb (isRunning (timer (app w)))
       || negb (truthy_number (startTime (timer (app w))))
    then (Return tt, w)
    else (now <- Date_now ;; set (Store.tick now)) w.

(** A session: calls of the hook's functions, each from a fresh render,
    and ticks of the interval, one after the other. *)
Inductive HookCall :=
| ChangeRoomStatus (room : Room) (newStatus : RoomStatus)
    (notes0 : option string)
| StartTask (room : Room) (taskType0 : TaskType)
| PauseTask
| ResumeTask
| FinishTask (room : Room) (nextStatus : option RoomStatus)
| IntervalTick.

Definition perform (c : HookCall) : M unit :=
  match c with
  | ChangeRoomStatus room newStatus notes0 =>
      Rendered.changeRoomStatus room newStatus notes0
  | StartTask room taskType0 => Rendered.startTask room taskType0 ;; ret tt
  | PauseTask => Rendered.pauseTask
  | ResumeTask => Rendered.resumeTask
  | FinishTask room nextStatus => Rendered.finishTask room nextStatus
  | IntervalTick => tick
  end.

Definition session (calls : list HookCall) (w : World) : World :=
  foldl (fun w c => after (perform c) w) w calls.

(** The columns of a work log that are written once, at its creation. *)
Definition log_identity (l : WorkLog)
    : string * string * string * TaskType * Z * option string :=
  (wl_id l, wl_room_number l, wl_staff_id l, wl_task_type l,
   wl_start_time l, wl_description l).

(** What a hook call may change, from [w] to [w']: the user and the
    outside stay; the audit trail only grows, by entries in the name of the
    logged-in user; no room appears, disappears or changes its id, number
    or assignment; no work log disappears or changes the columns written
    at its creation. *)
Record hook_step (w w' : World) : Prop := mkHookStep {
  step_env : env w' = env w;
  step_user : currentUser (app w') = currentUser (app w);
  step_audit :
    exists new, audit_logs w' = audit_logs w ++ new
      /\ Forall (fun e => Some (changed_by e)
                          = profile_id <$> currentUser (app w)) new;
  step_table :
    (fun r => (id r, room_number r, assigned_to r)) <$> rooms_table w'
    = (fun r => (id r, room_number r, assigned_to r)) <$> rooms_table w;
  step_rooms :
    (fun r => (id r, room_number r, assigned_to r)) <$> rooms (app w')
    = (fun r => (id r, room_number r, assigned_to r)) <$> rooms (app w);
  step_logs :
    exists new,
      log_identity <$> work_logs w' = (log_identity <$> work_logs w) ++ new
}.

(** What a hook call keeps true of the store. *)
Definition store_ok (s : AppState) : Prop :=
  task_named (timer s) /\ running_has_log (timer s)
  /\ start_cleared (timer s)
  /\ (length (notifications s) <= 50)%nat.

(** * Properties *)

(** Unfolding the sequencing of a hook function down to the clock, the
    random ids, the requests and the store actions. *)
Ltac unfold_js :=
  unfold try_catch, addNotification, updateRoom, startTimer, pauseTimer,
    resumeTimer, stopTimer, resetTimer, Supabase.updateRoomStatus,
    Supabase.createAuditLog, Supabase.createWorkLog, Supabase.pauseWorkLog,
    Supabase.resumeWorkLog, Supabase.finishWorkLog, Supabase.update_work_log,
    request, Date_now, Math_random_id, set, ret, bind.

Tactic Notation "unfold_js" "in" hyp(H) :=
  unfold try_catch, addNotification, updateRoom, startTimer, pauseTimer,
    resumeTimer, stopTimer, resetTimer, Supabase.updateRoomStatus,
    Supabase.createAuditLog, Supabase.createWorkLog, Supabase.pauseWorkLog,
    Supabase.resumeWorkLog, Supabase.finishWorkLog, Supabase.update_work_log,
    request, Date_now, Math_random_id, set, ret, bind in H.

(** The cleaning scenario of the specification, run on the model: A101
    goes from [Dirty] to [Cleaning] to [Vacant Clean], each move is in the
    audit trail, the work log is completed with the 125 seconds the timer
    had accumulated, and the timer ends idle. *)
Example cleaning_scenario_runs :
  status (Demo.room_of Demo.cleaning_scenario "A101") = "Vacant Clean"
  /\ (fun l => (from_status l, to_status l))
       <$> audit_logs Demo.cleaning_scenario
     = [("Dirty", "Cleaning"); ("Cleaning", "Vacant Clean")]
  /\ (fun l => (wl_status l, wl_total_duration l))
       <$> work_logs Demo.cleaning_scenario
     = [(Completed, Some 125)]
  /\ timer (app Demo.cleaning_scenario) = Store.initial_timer.
Proof. by vm_compute. Qed.

(** ** The transition table *)

Lemma availableStatuses_unknown (s : RoomStatus) :
  s ∉ RoomStatus_values -> s ∉ Object_prototype_names ->
  availableStatuses s = Array [].
Proof.
  intros Hs Hproto. unfold availableStatuses, Object_get, statusWorkflow.
  unfold RoomStatus_values in Hs.
  repeat (rewrite lookup_insert_ne; [| intros <-; apply Hs; set_solver]).
  rewrite lookup_empty. by rewrite decide_False.
Qed.

Lemma availableStatuses_inherited (s : RoomStatus) :
  s ∈ Object_prototype_names -> availableStatuses s = Prototype_member s.
Proof.
  intros Hs. unfold Object_prototype_names in Hs.
  repeat (apply elem_of_cons in Hs as [-> | Hs]; [reflexivity |]).
  by apply elem_of_nil in Hs.
Qed.

Lemma availableStatuses_spec (s : RoomStatus) :
  s ∉ Object_prototype_names ->
  availableStatuses s = Array (spec_legalNextStates s).
Proof.
  intros Hproto.
  destruct (decide (s ∈ RoomStatus_values)) as [Hin | Hout].
  - unfold RoomStatus_values in Hin.
    repeat (apply elem_of_cons in Hin as [-> | Hin]; [reflexivity |]).
    by apply elem_of_nil in Hin.
  - rewrite availableStatuses_unknown by done.
    unfold spec_legalNextStates, RoomStatus_values in *.
    repeat match goal with
           | |- context [String.eqb s ?k] =>
               destruct (String.eqb_spec s k) as [-> | _];
               [exfalso; apply Hout; set_solver |]
           end.
    reflexivity.
Qed.

Lemma table_rows_closed :
  Forall (fun from : RoomStatus =>
            (from ∉ availableStatuses from)
            /\ (exists row, availableStatuses from = Array row
                 /\ Forall (fun to => to ∈ RoomStatus_values) row))
    RoomStatus_values.
Proof.
  unfold RoomStatus_values.
  repeat (apply Forall_cons; split;
          [split; [compute_done | eexists; split; [reflexivity |];
                                  compute_done] |]).
  apply Forall_nil_2.
Qed.

(** The part of the table that is as the specification prints it: at each
    of the seven statuses the lookup yields the row of section 4.1
    ([Dirty] leads to [Check-out Inspected], [Cleaning] and
    [Out of Order]); no status is among its own successors; every
    successor is one of the seven statuses; and a key that is neither one
    of the seven nor the name of a member of [Object.prototype] yields the
    empty array. *)
Lemma statusWorkflow_is_the_table :
  (forall from : RoomStatus,
      from ∉ Object_prototype_names ->
      availableStatuses from = Array (spec_legalNextStates from))
  /\ availableStatuses "Dirty"
      = Array ["Check-out Inspected"; "Cleaning"; "Out of Order"]
  /\ (forall from : RoomStatus, from ∉ availableStatuses from)
  /\ (forall from to : RoomStatus,
        to ∈ availableStatuses from ->
        from ∈ RoomStatus_values /\ to ∈ RoomStatus_values)
  /\ (forall from : RoomStatus,
        from ∉ RoomStatus_values -> from ∉ Object_prototype_names ->
        availableStatuses from = Array []).
Proof.
  pose proof table_rows_closed as Hrows.
  rewrite Forall_forall in Hrows.
  assert (forall from to : RoomStatus,
            from ∉ RoomStatus_values -> to ∉ availableStatuses from)
    as Houtside.
  { intros from to Hout.
    destruct (decide (from ∈ Object_prototype_names)) as [Hproto | Hproto].
    - rewrite availableStatuses_inherited by done. by intros [].
    - rewrite availableStatuses_unknown by done.
      unfold elem_of, JSValue_elem_of. apply not_elem_of_nil. }
  split; [exact availableStatuses_spec |].
  split; [reflexivity |].
  split; [| split; [| exact availableStatuses_unknown]].
  - intros from.
    destruct (decide (from ∈ RoomStatus_values)) as [Hin | Hout].
    + exact (proj1 (Hrows from Hin)).
    + by apply Houtside.
  - intros from to Hto.
    destruct (decide (from ∈ RoomStatus_values)) as [Hin | Hout].
    + split; [done |].
      destruct (Hrows from Hin) as (_ & row & Hrow & Hall).
      rewrite Hrow in Hto. rewrite Forall_forall in Hall. by apply Hall.
    + by destruct (Houtside from to Hout).
Qed.

(** C4. The lookup [statusWorkflow[room.status] || []] does not fail
    closed.  For the status [constructor], which is none of the seven, it
    yields the member of that name that the table inherits from
    [Object.prototype], not the empty array; and so it does for the name of
    every member of [Object.prototype]. *)
Theorem availableStatuses_of_an_inherited_name :
  ("constructor" ∉ RoomStatus_values)
  /\ availableStatuses "constructor" = Prototype_member "constructor"
  /\ availableStatuses "constructor" <> Array []
  /\ Forall (fun key => (key ∉ RoomStatus_values)
                        /\ availableStatuses key = Prototype_member key)
       Object_prototype_names.
Proof.
  split; [compute_done |]. split; [reflexivity |]. split; [discriminate |].
  unfold Object_prototype_names.
  repeat (apply Forall_cons; split;
          [split; [compute_done | reflexivity] |]).
  apply Forall_nil_2.
Qed.

(** ** The timer *)

Lemma tick_not_running (now : Z) (s : AppState) :
  isRunning (timer s) = false -> Store.tick now s = s.
Proof. intros H. unfold Store.tick. by rewrite H. Qed.

Lemma tick_cases (now : Z) (s : AppState) :
  Store.tick now s = s
  \/ (exists start,
        startTime (timer s) = Some start
        /\ startTime (timer (Store.tick now s)) = Some now
        /\ elapsedTime (timer (Store.tick now s))
           = elapsedTime (timer s) + (now - start) / 1000).
Proof.
  unfold Store.tick.
  destruct (negb (isRunning (timer s))
            || negb (truthy_number (startTime (timer s)))) eqn:Hguard.
  - by left.
  - right. destruct (startTime (timer s)) as [start |] eqn:Hstart.
    + exists start. by cbn.
    + cbn in Hguard. by rewrite orb_true_r in Hguard.
Qed.

Lemma nondecreasing_tail (a : Z) (l : list Z) :
  nondecreasing (a :: l) -> nondecreasing l.
Proof. destruct l; cbn; tauto. Qed.

Lemma nondecreasing_skip (a b : Z) (l : list Z) :
  nondecreasing (a :: b :: l) -> nondecreasing (a :: l).
Proof. destruct l as [| c l]; cbn; [tauto |]. intuition lia. Qed.

Lemma elapsed_trace_nondecreasing (nows : list Z) :
  forall s : AppState,
    nondecreasing (readings (timer s) nows) ->
    nondecreasing (elapsedTime (timer s) :: elapsed_trace nows s).
Proof.
  induction nows as [| now rest IH]; intros s Hclock; [exact I |].
  cbn [elapsed_trace].
  destruct (tick_cases now s) as [Hsame | (start & Hstart & Hstart' & Hel)].
  - rewrite Hsame. split; [lia |]. apply IH.
    unfold readings in *. destruct (startTime (timer s)).
    + by eapply nondecreasing_skip.
    + by eapply nondecreasing_tail.
  - split.
    + rewrite Hel. unfold readings in Hclock. rewrite Hstart in Hclock.
      destruct Hclock as [Hle _].
      assert (0 <= (now - start) / 1000) by (apply Z.div_pos; lia). lia.
    + apply IH. unfold readings in *. rewrite Hstart in Hclock.
      rewrite Hstart'. by eapply nondecreasing_tail.
Qed.

Lemma ticks_not_running (nows : list Z) (s : AppState) :
  isRunning (timer s) = false -> ticks nows s = s.
Proof.
  intros H. unfold ticks. induction nows as [| now rest IH]; [done |].
  cbn. by rewrite tick_not_running.
Qed.

(** C8 (as amended). [tick] reads the wall clock, [Date.now()].  Provided
    the clock does not go backwards (the readings of the ticks are in
    non-decreasing order, after the timer's start time), the elapsed time
    shown after successive [tick] calls never decreases, whatever the state
    of the timer, so in particular while it runs.  While the timer is not
    running (paused or idle), any number of [tick] calls at any clock
    readings leaves the whole store, hence the elapsed time, as it is. *)
Theorem tick_elapsed_monotone_and_frozen (s : AppState) (nows : list Z) :
  (nondecreasing (readings (timer s) nows) ->
   nondecreasing (elapsedTime (timer s) :: elapsed_trace nows s))
  /\ (isRunning (timer s) = false ->
      ticks nows s = s
      /\ elapsed_trace nows s = replicate (length nows) (elapsedTime (timer s))).
Proof.
  split; [apply elapsed_trace_nondecreasing |].
  intros Hidle. split; [by apply ticks_not_running |].
  induction nows as [| now rest IH]; [done |].
  cbn. rewrite tick_not_running by done. by rewrite IH.
Qed.

Lemma tick_elapsed_monotone_and_frozen_witness :
  nondecreasing
    (125 :: elapsed_trace [1700000000000; 1700000000999; 1700000002000]
              (with_timer Demo.cleaning_A104 Store.initial))
  /\ ticks [5; 3; 1] (Store.pauseTimer (with_timer Demo.cleaning_A104 Store.initial))
     = Store.pauseTimer (with_timer Demo.cleaning_A104 Store.initial).
Proof.
  split.
  - apply (proj1 (tick_elapsed_monotone_and_frozen
                    (with_timer Demo.cleaning_A104 Store.initial)
                    [1700000000000; 1700000000999; 1700000002000])).
    cbn. lia.
  - apply (proj2 (tick_elapsed_monotone_and_frozen
                    (Store.pauseTimer
                       (with_timer Demo.cleaning_A104 Store.initial))
                    [5; 3; 1])).
    reflexivity.
Defined.

(** C8 (as stated) fails: the elapsed time of a running timer decreases
    when the wall clock is set back.  Siti's timer runs with 125 seconds
    accumulated; a [tick] that reads the clock seven seconds before the
    timer's start time leaves 118 seconds. *)
Lemma tick_after_the_clock_was_set_back :
  isRunning (timer (with_timer Demo.cleaning_A104 Store.initial)) = true
  /\ startTime (timer (with_timer Demo.cleaning_A104 Store.initial))
     = Some 1699999997000
  /\ elapsedTime (timer (with_timer Demo.cleaning_A104 Store.initial)) = 125
  /\ elapsedTime
       (timer (Store.tick 1699999990000
                 (with_timer Demo.cleaning_A104 Store.initial)))
     = 118
  /\ isRunning
       (timer (Store.tick 1699999990000
                 (with_timer Demo.cleaning_A104 Store.initial)))
     = true
  /\ ~ nondecreasing
         (125 :: elapsed_trace [1699999990000]
                   (with_timer Demo.cleaning_A104 Store.initial)).
Proof.
  repeat (split; [reflexivity |]).
  intros [Hle _]. vm_compute in Hle. by apply Hle.
Qed.

Lemma act_start_cleared (s : AppState) (a : TimerAction) :
  start_cleared (timer s) -> start_cleared (timer (act s a)).
Proof.
  unfold start_cleared. intros Hs.
  destruct a as [now logId rn tt | | now | | | now]; cbn; try done.
  unfold Store.tick.
  destruct (isRunning (timer s)) eqn:Hrun; cbn; [| by auto].
  destruct (negb (truthy_number (startTime (timer s)))); cbn.
  - intros Hidle. congruence.
  - discriminate.
Qed.

Lemma history_start_cleared (history : list TimerAction) :
  forall s : AppState,
    start_cleared (timer s) -> start_cleared (timer (foldl act s history)).
Proof.
  induction history as [| a rest IH]; intros s Hs; [done |].
  cbn. apply IH. by apply act_start_cleared.
Qed.

Lemma pauseTimer_idle (s : AppState) :
  isRunning (timer s) = false -> startTime (timer s) = None ->
  Store.pauseTimer s = s.
Proof.
  destruct s as [u r rs sel [run start el lg rn tt] ns ld]. cbn.
  by intros -> ->.
Qed.

(** ** [changeRoomStatus] *)

(** C10. Without a logged-in user, [changeRoomStatus] returns without a
    single request to the database: the [rooms] table, the audit trail and
    the work logs are as before, and so are the store's rooms; the store
    differs from the old one only in its notifications, which are the 50
    most recent of the error notification "Authentication required"
    followed by the old ones. *)
Theorem changeRoomStatus_logged_out (w : World) (room : Room)
    (newStatus : RoomStatus) (notes0 : option string) :
  currentUser (app w) = None ->
  result (Rendered.changeRoomStatus room newStatus notes0) w = Return tt
  /\ requests (after (Rendered.changeRoomStatus room newStatus notes0) w)
     = requests w
  /\ rooms_table (after (Rendered.changeRoomStatus room newStatus notes0) w)
     = rooms_table w
  /\ audit_logs (after (Rendered.changeRoomStatus room newStatus notes0) w)
     = audit_logs w
  /\ work_logs (after (Rendered.changeRoomStatus room newStatus notes0) w)
     = work_logs w
  /\ rooms (app (after (Rendered.changeRoomStatus room newStatus notes0) w))
     = rooms (app w)
  /\ app (after (Rendered.changeRoomStatus room newStatus notes0) w)
     = with_notifications
         (take 50
            ({| n_id := random (env w) (random_draws w);
                n_title := "Authentication required";
                n_message := "Please log in to change room status";
                n_type := error;
                n_timestamp := clock (env w) (clock_reads w);
                n_read := false |} :: notifications (app w)))
         (app w).
Proof.
  intros Hnone.
  unfold result, after, Rendered.changeRoomStatus, changeRoomStatus.
  rewrite Hnone. cbn. repeat split.
Qed.

Lemma changeRoomStatus_logged_out_witness :
  result (Rendered.changeRoomStatus Demo.B203 "Dirty" None)
    (Demo.world [] None Store.initial_timer) = Return tt
  /\ audit_logs
       (after (Rendered.changeRoomStatus Demo.B203 "Dirty" None)
          (Demo.world [] None Store.initial_timer)) = [].
Proof.
  pose proof (changeRoomStatus_logged_out
                (Demo.world [] None Store.initial_timer)
                Demo.B203 "Dirty" None eq_refl) as H.
  split; [apply H | apply H].
Defined.

Lemma take_short {A} (k : nat) (l l' : list A) :
  take k l = l' -> (length l' < k)%nat -> l = l'.
Proof.
  intros <- Hlen. rewrite length_take in Hlen.
  symmetry. apply take_ge. lia.
Qed.

(** A call that returns and, in a store that had no notification, leaves
    fewer than 50 notifications, none of them an error, has not failed. *)
Lemma no_error_not_fails {A} (m : M A) (w : World) (a : A) :
  result m w = Return a ->
  notifications (app w) = [] ->
  (length (notifications (app (after m w))) < 50)%nat ->
  Forall (fun n => n_type n <> error) (notifications (app (after m w))) ->
  ~ fails m w.
Proof.
  intros Hres Hnone Hlen Hall [[e He] | (added & n & Hadd & Hin & Herr)].
  - congruence.
  - rewrite Hnone, app_nil_r in Hadd. symmetry in Hadd.
    apply take_short in Hadd; [| done]. subst added.
    rewrite Forall_forall in Hall. by apply (Hall n).
Qed.

(** C1 (as amended). [changeRoomStatus] does not consult the transition
    table.  For every room and every target status, legal or not, with a
    user logged in and a database that answers the two requests, it
    returns, sets the status of the room's row in the [rooms] table, appends
    one audit entry from the room's status to the target, patches the room
    in the store and reports "Status updated". *)
Theorem changeRoomStatus_commits_any_pair (w : World) (user : Profile)
    (room : Room) (newStatus : RoomStatus) (notes0 : option string) :
  currentUser (app w) = Some user ->
  db_error (env w) (requests w) = None ->
  db_error (env w) (S (requests w)) = None ->
  result (Rendered.changeRoomStatus room newStatus notes0) w = Return tt
  /\ rooms_table (after (Rendered.changeRoomStatus room newStatus notes0) w)
     = patch_rooms (id room)
         (status_updates newStatus (clock (env w) (clock_reads w)))
         (rooms_table w)
  /\ audit_logs (after (Rendered.changeRoomStatus room newStatus notes0) w)
     = audit_logs w ++
         [ {| al_room_number := room_number room;
              changed_by := profile_id user;
              changer_name := Some (full_name user);
              changer_role := Some (role user);
              from_status := status room;
              to_status := newStatus;
              al_timestamp := clock (env w) (S (clock_reads w));
              al_notes := notes0 |} ]
  /\ rooms (app (after (Rendered.changeRoomStatus room newStatus notes0) w))
     = patch_rooms (id room)
         (status_updates newStatus (clock (env w) (S (S (clock_reads w)))))
         (rooms (app w))
  /\ notifications
       (app (after (Rendered.changeRoomStatus room newStatus notes0) w))
     = take 50
         ({| n_id := random (env w) (random_draws w);
             n_title := "Status updated";
             n_message := "Room " +:+ room_number room +:+ " changed from "
                            +:+ status room +:+ " to " +:+ newStatus;
             n_type := success;
             n_timestamp := clock (env w) (S (S (S (clock_reads w))));
             n_read := false |} :: notifications (app w)).
Proof.
  intros Huser Hok1 Hok2.
  unfold result, after, Rendered.changeRoomStatus, changeRoomStatus.
  rewrite Huser.
  unfold_js. cbn.
  rewrite Hok1. cbn. rewrite Hok2. cbn. repeat split.
Qed.

Lemma changeRoomStatus_commits_any_pair_witness :
  audit_logs
    (after (Rendered.changeRoomStatus Demo.A101 "Cleaning" None)
       (Demo.world [] (Some Demo.siti) Store.initial_timer))
  = [ {| al_room_number := "A101"; changed_by := "1";
         changer_name := Some "Siti Rahayu";
         changer_role := Some Housekeeping;
         from_status := "Dirty"; to_status := "Cleaning";
         al_timestamp := 1700000001000; al_notes := None |} ].
Proof.
  apply (changeRoomStatus_commits_any_pair
           (Demo.world [] (Some Demo.siti) Store.initial_timer) Demo.siti
           Demo.A101 "Cleaning" None eq_refl eq_refl eq_refl).
Defined.

(** C1 (as stated) fails: [Occupied] is not a legal successor of
    [Out of Order], yet the call does not fail, the room becomes [Occupied]
    in the table and in the store, and the audit trail grows. *)
Lemma changeRoomStatus_Out_of_Order_to_Occupied :
  ("Occupied" ∉ availableStatuses (status Demo.B203))
  /\ ~ fails (Rendered.changeRoomStatus Demo.B203 "Occupied" None)
        (Demo.world [] (Some Demo.siti) Store.initial_timer)
  /\ status <$> rooms_table
        (after (Rendered.changeRoomStatus Demo.B203 "Occupied" None)
           (Demo.world [] (Some Demo.siti) Store.initial_timer))
      = ["Dirty"; "Cleaning"; "Occupied"]
  /\ status <$> rooms
        (app (after (Rendered.changeRoomStatus Demo.B203 "Occupied" None)
                (Demo.world [] (Some Demo.siti) Store.initial_timer)))
      = ["Dirty"; "Cleaning"; "Occupied"]
  /\ (fun l => (from_status l, to_status l)) <$> audit_logs
        (after (Rendered.changeRoomStatus Demo.B203 "Occupied" None)
           (Demo.world [] (Some Demo.siti) Store.initial_timer))
      = [("Out of Order", "Occupied")].
Proof.
  split; [compute_done |].
  split; [| by vm_compute].
  eapply no_error_not_fails; [reflexivity | reflexivity | |].
  - vm_compute. lia.
  - vm_compute. repeat constructor; discriminate.
Qed.

(** C3 (as amended). The row of the [rooms] table is updated before the
    audit entry is inserted, and the store's room is patched only after the
    insertion.  When the insertion fails after the update succeeded, the
    table keeps the new status (no rollback), the audit trail has no new
    entry, the store's rooms are left as they were, and the failure is
    reported as the error notification "Error updating status" carrying
    the error's message; the call itself returns. *)
Theorem changeRoomStatus_audit_failure (w : World) (user : Profile)
    (room : Room) (newStatus : RoomStatus) (notes0 : option string)
    (e : string) :
  currentUser (app w) = Some user ->
  db_error (env w) (requests w) = None ->
  db_error (env w) (S (requests w)) = Some e ->
  result (Rendered.changeRoomStatus room newStatus notes0) w = Return tt
  /\ rooms_table (after (Rendered.changeRoomStatus room newStatus notes0) w)
     = patch_rooms (id room)
         (status_updates newStatus (clock (env w) (clock_reads w)))
         (rooms_table w)
  /\ audit_logs (after (Rendered.changeRoomStatus room newStatus notes0) w)
     = audit_logs w
  /\ rooms (app (after (Rendered.changeRoomStatus room newStatus notes0) w))
     = rooms (app w)
  /\ notifications
       (app (after (Rendered.changeRoomStatus room newStatus notes0) w))
     = take 50
         ({| n_id := random (env w) (random_draws w);
             n_title := "Error updating status";
             n_message := e;
             n_type := error;
             n_timestamp := clock (env w) (S (S (clock_reads w)));
             n_read := false |} :: notifications (app w)).
Proof.
  intros Huser Hok1 Hfail2.
  unfold result, after, Rendered.changeRoomStatus, changeRoomStatus.
  rewrite Huser.
  unfold_js. cbn.
  rewrite Hok1. cbn. rewrite Hfail2. cbn. repeat split.
Qed.

Lemma changeRoomStatus_audit_failure_witness :
  status <$> rooms_table
    (after (Rendered.changeRoomStatus Demo.A101 "Cleaning" None)
       (Demo.world [(1%nat, "insert failed")] (Some Demo.siti)
          Store.initial_timer))
  = ["Cleaning"; "Cleaning"; "Out of Order"].
Proof.
  rewrite (proj1 (proj2 (changeRoomStatus_audit_failure
           (Demo.world [(1%nat, "insert failed")] (Some Demo.siti)
              Store.initial_timer)
           Demo.siti Demo.A101 "Cleaning" None "insert failed"
           eq_refl eq_refl eq_refl))).
  reflexivity.
Defined.

(** C3 (as stated) fails: the room registry of the store is not mutated
    before the audit entry is appended.  [Out of Order] to [Dirty] is a
    legal move; when the audit insertion fails, the table holds [Dirty]
    while the store still holds [Out of Order], with no audit entry. *)
Lemma changeRoomStatus_registry_behind_table :
  ("Dirty" ∈ availableStatuses (status Demo.B203))
  /\ status <$> rooms_table
        (after (Rendered.changeRoomStatus Demo.B203 "Dirty" None)
           (Demo.world [(1%nat, "insert failed")] (Some Demo.siti)
              Store.initial_timer))
      = ["Dirty"; "Cleaning"; "Dirty"]
  /\ status <$> rooms
        (app (after (Rendered.changeRoomStatus Demo.B203 "Dirty" None)
                (Demo.world [(1%nat, "insert failed")] (Some Demo.siti)
                   Store.initial_timer)))
      = ["Dirty"; "Cleaning"; "Out of Order"]
  /\ audit_logs
        (after (Rendered.changeRoomStatus Demo.B203 "Dirty" None)
           (Demo.world [(1%nat, "insert failed")] (Some Demo.siti)
              Store.initial_timer))
      = []
  /\ (fun n => (n_title n, n_message n, n_type n)) <$> notifications
        (app (after (Rendered.changeRoomStatus Demo.B203 "Dirty" None)
                (Demo.world [(1%nat, "insert failed")] (Some Demo.siti)
                   Store.initial_timer)))
      = [("Error updating status", "insert failed", error)].
Proof. split; [compute_done | by vm_compute]. Qed.

(** What [changeRoomStatus] never touches, whoever calls it and however
    the database answers: it returns, and leaves the timer, the user, the
    work logs and every room's [assigned_to] as they are. *)
Lemma patch_rooms_status_assigned_to (roomId : string)
    (newStatus : RoomStatus) (now : Z) (rs : list Room) :
  assigned_to <$> patch_rooms roomId (status_updates newStatus now) rs
  = assigned_to <$> rs.
Proof.
  unfold patch_rooms. rewrite <- list_fmap_compose.
  apply list_fmap_ext. intros i r _. cbn. by destruct (decide _).
Qed.

Lemma changeRoomStatus_frame (user : option Profile) (room : Room)
    (newStatus : RoomStatus) (notes0 : option string) (w : World) :
  result (changeRoomStatus user room newStatus notes0) w = Return tt
  /\ env (after (changeRoomStatus user room newStatus notes0) w) = env w
  /\ timer (app (after (changeRoomStatus user room newStatus notes0) w))
     = timer (app w)
  /\ currentUser (app (after (changeRoomStatus user room newStatus notes0) w))
     = currentUser (app w)
  /\ work_logs (after (changeRoomStatus user room newStatus notes0) w)
     = work_logs w
  /\ assigned_to <$>
       rooms (app (after (changeRoomStatus user room newStatus notes0) w))
     = assigned_to <$> rooms (app w)
  /\ assigned_to <$>
       rooms_table (after (changeRoomStatus user room newStatus notes0) w)
     = assigned_to <$> rooms_table w.
Proof.
  unfold result, after, changeRoomStatus.
  destruct user as [user |]; [| cbn; by repeat split].
  unfold_js. cbn.
  destruct (db_error (env w) (requests w)); cbn; [by repeat split |].
  destruct (db_error (env w) (S (requests w))); cbn;
    repeat split; try done; apply patch_rooms_status_assigned_to.
Qed.

(** ** [startTask] *)

(** C2 (as amended). [startTask] does not look at the timer.  For every
    room, task type and timer state (idle, running or paused), with a user
    logged in and a database that accepts the new work log, it returns the
    new log's id, appends the work log row, and replaces the timer by a
    running one for that log, room and task type with no elapsed time. *)
Theorem startTask_replaces_the_timer (w : World) (user : Profile)
    (room : Room) (taskType0 : TaskType) :
  currentUser (app w) = Some user ->
  db_error (env w) (requests w) = None ->
  result (Rendered.startTask room taskType0) w
  = Return (Some (generated_id (env w) (length (work_logs w))))
  /\ work_logs (after (Rendered.startTask room taskType0) w)
     = work_logs w ++
         [ {| wl_id := generated_id (env w) (length (work_logs w));
              wl_room_number := room_number room;
              wl_staff_id := profile_id user;
              wl_task_type := taskType0;
              wl_start_time := clock (env w) (clock_reads w);
              wl_pause_time := None; wl_end_time := None;
              wl_total_duration := None;
              wl_description :=
                Some (taskType0 +:+ " started for room "
                        +:+ room_number room);
              wl_status := InProgress |} ]
  /\ timer (app (after (Rendered.startTask room taskType0) w))
     = {| isRunning := true;
          startTime := Some (clock (env w) (S (clock_reads w)));
          elapsedTime := 0;
          currentLogId :=
            Some (generated_id (env w) (length (work_logs w)));
          roomNumber := Some (room_number room);
          taskType := Some taskType0 |}.
Proof.
  intros Huser Hok. unfold result, after.
  destruct (Rendered.startTask room taskType0 w) as [res w'] eqn:Hrun.
  unfold Rendered.startTask, startTask in Hrun. rewrite Huser in Hrun.
  remember (changeRoomStatus (Some user)) as change eqn:Hchange.
  unfold_js in Hrun. cbn in Hrun. rewrite Hok in Hrun. cbn in Hrun.
  destruct (decide (startStatus room taskType0 = status room)) as [_ | _].
  - injection Hrun as <- <-. by repeat split.
  - match type of Hrun with
    | context [change ?r ?s ?n ?w1] =>
        pose proof (changeRoomStatus_frame (Some user) r s n w1)
          as (Hres & _ & Htimer & _ & Hlogs & _);
        unfold result, after in Hres, Htimer, Hlogs;
        rewrite <- Hchange in Hres, Htimer, Hlogs;
        destruct (change r s n w1) as [res1 w2]
    end.
    cbn in *. subst res1. injection Hrun as <- <-. cbn.
    rewrite Htimer, Hlogs. by repeat split.
Qed.

Lemma startTask_replaces_the_timer_witness :
  timer (app (after (Rendered.startTask Demo.A101 "Cleaning")
                (Demo.world [] (Some Demo.siti) Store.initial_timer)))
  = {| isRunning := true; startTime := Some 1700000001000;
       elapsedTime := 0; currentLogId := Some "log";
       roomNumber := Some "A101"; taskType := Some "Cleaning" |}.
Proof.
  apply (startTask_replaces_the_timer
           (Demo.world [] (Some Demo.siti) Store.initial_timer) Demo.siti
           Demo.A101 "Cleaning" eq_refl eq_refl).
Defined.

(** C2 (as stated) fails: while the timer runs for the cleaning of A104,
    [startTask] on A101 does not fail; it returns a new log id, adds a
    second work log next to the unfinished one, and the timer now belongs
    to A101. *)
Lemma startTask_while_timer_running :
  isRunning (timer (app (Demo.cleaning []))) = true
  /\ result (Rendered.startTask Demo.A101 "Cleaning") (Demo.cleaning [])
     = Return (Some "xlog")
  /\ ~ fails (Rendered.startTask Demo.A101 "Cleaning") (Demo.cleaning [])
  /\ (fun l => (wl_id l, wl_room_number l, wl_status l)) <$> work_logs
        (after (Rendered.startTask Demo.A101 "Cleaning") (Demo.cleaning []))
     = [("log", "A104", InProgress); ("xlog", "A101", InProgress)]
  /\ timer (app (after (Rendered.startTask Demo.A101 "Cleaning")
                   (Demo.cleaning [])))
     = {| isRunning := true; startTime := Some 1700000001000;
          elapsedTime := 0; currentLogId := Some "xlog";
          roomNumber := Some "A101"; taskType := Some "Cleaning" |}.
Proof.
  split; [reflexivity |]. split; [by vm_compute |].
  split; [| by vm_compute].
  eapply no_error_not_fails; [by vm_compute | reflexivity | |].
  - vm_compute. lia.
  - vm_compute. repeat constructor; discriminate.
Qed.

(** ** [finishTask] *)

Lemma finishTask_guarded (user : option Profile) (t : TimerState)
    (room : Room) (nextStatus : option RoomStatus) (w : World) :
  truthy_string (currentLogId t) = false \/ user = None ->
  finishTask user t room nextStatus w = (Return tt, w).
Proof.
  unfold finishTask. intros [-> | ->]; [done |].
  by rewrite orb_true_r.
Qed.

(** Past the guard and the work log request, [finishTask] runs to its end:
    it returns, the timer is the initial one, and rooms, tables and user
    are those of [finishTask_midway]. *)
Lemma finishTask_success (user : Profile) (t : TimerState) (room : Room)
    (nextStatus : option RoomStatus) (w : World) :
  truthy_string (currentLogId t) = true ->
  db_error (env w) (requests w) = None ->
  result (finishTask (Some user) t room nextStatus) w = Return tt
  /\ timer (app (after (finishTask (Some user) t room nextStatus) w))
     = Store.initial_timer
  /\ rooms (app (after (finishTask (Some user) t room nextStatus) w))
     = rooms (app (finishTask_midway user t room nextStatus w))
  /\ rooms_table (after (finishTask (Some user) t room nextStatus) w)
     = rooms_table (finishTask_midway user t room nextStatus w)
  /\ audit_logs (after (finishTask (Some user) t room nextStatus) w)
     = audit_logs (finishTask_midway user t room nextStatus w).
Proof.
  intros Hlog Hok. unfold finishTask_midway. unfold result, after.
  destruct (finishTask (Some user) t room nextStatus w) as [res w'] eqn:Hrun.
  unfold finishTask in Hrun. rewrite Hlog in Hrun.
  remember (changeRoomStatus (Some user)) as change eqn:Hchange.
  unfold_js. unfold_js in Hrun.
  cbn in *. rewrite Hok in *. cbn in *.
  destruct (decide (finalStatus t room nextStatus = status room)) as [_ | _].
  - injection Hrun as <- <-. by repeat split.
  - match type of Hrun with
    | context [change ?r ?s ?n ?w1] =>
        pose proof (changeRoomStatus_frame (Some user) r s n w1)
          as (Hres & _);
        unfold result in Hres; rewrite <- Hchange in Hres;
        destruct (change r s n w1) as [res1 w2]
    end.
    cbn in *. subst res1. injection Hrun as <- <-. by repeat split.
Qed.

Lemma finishTask_midway_assigned_to (user : Profile) (t : TimerState)
    (room : Room) (nextStatus : option RoomStatus) (w : World) :
  assigned_to <$> rooms (app (finishTask_midway user t room nextStatus w))
  = assigned_to <$> rooms (app w)
  /\ assigned_to <$> rooms_table (finishTask_midway user t room nextStatus w)
     = assigned_to <$> rooms_table w.
Proof.
  unfold finishTask_midway.
  set (w1 := after (Supabase.finishWorkLog _ _) w).
  assert (rooms (app w1) = rooms (app w) /\ rooms_table w1 = rooms_table w)
    as [Hrooms Htable].
  { unfold w1, after. unfold_js. cbn.
    by destruct (db_error (env w) (requests w)). }
  destruct (decide _) as [_ | _].
  - by rewrite Hrooms, Htable.
  - match goal with
    | |- context [after (changeRoomStatus ?u ?r ?s ?n) ?w0] =>
        pose proof (changeRoomStatus_frame u r s n w0)
          as (_ & _ & _ & _ & _ & Hstore & Htbl)
    end.
    by rewrite Hstore, Htbl, Hrooms, Htable.
Qed.

(** A [finishTask] that gets past its guard (a user is logged in and the
    timer holds a log id) and whose work log request succeeds returns with
    the timer reset to the initial, idle timer, and without a write to
    [assigned_to]: every room has the value it had, in the store and in the
    [rooms] table. *)
Lemma finishTask_resets_timer_keeps_assigned_to (w : World)
    (user : Profile) (room : Room) (nextStatus : option RoomStatus) :
  currentUser (app w) = Some user ->
  truthy_string (currentLogId (timer (app w))) = true ->
  db_error (env w) (requests w) = None ->
  result (Rendered.finishTask room nextStatus) w = Return tt
  /\ timer (app (after (Rendered.finishTask room nextStatus) w))
     = Store.initial_timer
  /\ assigned_to <$>
       rooms (app (after (Rendered.finishTask room nextStatus) w))
     = assigned_to <$> rooms (app w)
  /\ assigned_to <$>
       rooms_table (after (Rendered.finishTask room nextStatus) w)
     = assigned_to <$> rooms_table w.
Proof.
  intros Huser Hlog Hok.
  destruct (finishTask_success user (timer (app w)) room nextStatus w
              Hlog Hok) as (Hres & Htimer & Hrooms & Htable & _).
  destruct (finishTask_midway_assigned_to user (timer (app w)) room
              nextStatus w) as [Hstore Htbl].
  unfold result, after, Rendered.finishTask in *. rewrite Huser.
  rewrite Hrooms, Htable. auto.
Qed.

Lemma finishTask_resets_timer_keeps_assigned_to_witness :
  timer (app (after (Rendered.finishTask Demo.A104 None) (Demo.cleaning [])))
  = Store.initial_timer.
Proof.
  apply (finishTask_resets_timer_keeps_assigned_to (Demo.cleaning [])
           Demo.siti Demo.A104 None eq_refl eq_refl eq_refl).
Defined.

(** C9. The code does not clear [assigned_to].  Room A104 of the demo data
    is assigned to staff member 1, Siti, while she cleans it; after her
    successful [finishTask] the timer is idle and the room is
    [Vacant Clean], but [assigned_to] still names her, in the store and in
    the [rooms] table, although no task is active on the room. *)
Theorem finishTask_leaves_assigned_to :
  result (Rendered.finishTask Demo.A104 None) (Demo.cleaning []) = Return tt
  /\ timer (app (after (Rendered.finishTask Demo.A104 None)
                   (Demo.cleaning [])))
     = Store.initial_timer
  /\ (fun r => (room_number r, status r, assigned_to r)) <$> rooms
        (app (after (Rendered.finishTask Demo.A104 None) (Demo.cleaning [])))
     = [("A101", "Dirty", None); ("A104", "Vacant Clean", Some "1");
        ("B203", "Out of Order", None)]
  /\ (fun r => (room_number r, status r, assigned_to r)) <$> rooms_table
        (after (Rendered.finishTask Demo.A104 None) (Demo.cleaning []))
     = [("A101", "Dirty", None); ("A104", "Vacant Clean", Some "1");
        ("B203", "Out of Order", None)].
Proof. by vm_compute. Qed.

(** C7 (as amended). When the work log request of a [finishTask] call does
    not fail, a second [finishTask] right after it (for any room and any
    next status), made from a render that has seen the store the first call
    left, so that its closure holds the timer the first call reset, stops
    at its guard: it returns without raising an error and leaves the world
    exactly as the first call left it, so no request is sent, no audit
    entry is appended, no status is changed and no notification is
    added. *)
Theorem finishTask_second_call_is_silent (w : World) (room room' : Room)
    (nextStatus nextStatus' : option RoomStatus) :
  db_error (env w) (requests w) = None ->
  Rendered.finishTask room' nextStatus'
    (after (Rendered.finishTask room nextStatus) w)
  = (Return tt, after (Rendered.finishTask room nextStatus) w).
Proof.
  intros Hok. unfold Rendered.finishTask at 1.
  destruct (currentUser (app w)) as [user |] eqn:Huser;
    [destruct (truthy_string (currentLogId (timer (app w)))) eqn:Hlog |].
  - destruct (finishTask_success user (timer (app w)) room nextStatus w
                Hlog Hok) as (_ & Htimer & _).
    apply finishTask_guarded. left.
    unfold after, Rendered.finishTask in *. rewrite Huser.
    by rewrite Htimer.
  - unfold after, Rendered.finishTask. rewrite Huser.
    rewrite (finishTask_guarded (Some user)) by auto. cbn.
    apply finishTask_guarded. auto.
  - unfold after, Rendered.finishTask. rewrite Huser.
    rewrite (finishTask_guarded None) by auto. cbn.
    apply finishTask_guarded. auto.
Qed.

Lemma finishTask_second_call_is_silent_witness :
  audit_logs
    (after (Rendered.finishTask Demo.A104 None)
       (after (Rendered.finishTask Demo.A104 None) (Demo.cleaning [])))
  = audit_logs (after (Rendered.finishTask Demo.A104 None) (Demo.cleaning [])).
Proof.
  unfold after at 1.
  rewrite (finishTask_second_call_is_silent (Demo.cleaning []) Demo.A104
             Demo.A104 None None eq_refl).
  reflexivity.
Defined.

Lemma unchanged_notifications_not_fails {A} (m : M A) (w : World) (a : A) :
  result m w = Return a ->
  notifications (app (after m w)) = notifications (app w) ->
  (length (notifications (app w)) < 50)%nat ->
  ~ fails m w.
Proof.
  intros Hres Hsame Hlen [[e He] | (added & n & Hadd & Hin & Herr)].
  - congruence.
  - rewrite Hsame in Hadd. symmetry in Hadd.
    apply take_short in Hadd; [| done].
    apply (f_equal length) in Hadd. rewrite length_app in Hadd.
    destruct added; [by apply elem_of_nil in Hin | cbn in Hadd; lia].
Qed.

(** C7 (as stated) fails in its first half: after Siti finished the
    cleaning of A104, a second [finishTask] does not fail.  It returns, and
    reports nothing. *)
Lemma finishTask_second_call_does_not_fail :
  result (Rendered.finishTask Demo.A104 None) (Demo.cleaning []) = Return tt
  /\ result (Rendered.finishTask Demo.A104 None)
       (after (Rendered.finishTask Demo.A104 None) (Demo.cleaning []))
     = Return tt
  /\ ~ fails (Rendered.finishTask Demo.A104 None)
         (after (Rendered.finishTask Demo.A104 None) (Demo.cleaning [])).
Proof.
  split; [by vm_compute |]. split; [by vm_compute |].
  eapply unchanged_notifications_not_fails.
  - by vm_compute.
  - by vm_compute.
  - vm_compute. lia.
Qed.

(** The guard of [finishTask] reads the timer of the closure, not the
    store.  A second call through the closure of the first call, whose
    timer still holds the log id, passes the guard and does everything
    again: three more requests, a second audit entry from [Cleaning] to
    [Vacant Clean], a second "Task completed". *)
Lemma finishTask_again_through_the_same_closure :
  requests
    (after (finishTask (Some Demo.siti) Demo.cleaning_A104 Demo.A104 None)
       (after (finishTask (Some Demo.siti) Demo.cleaning_A104 Demo.A104 None)
          (Demo.cleaning [])))
  = 6%nat
  /\ (fun a => (from_status a, to_status a)) <$>
       audit_logs
         (after (finishTask (Some Demo.siti) Demo.cleaning_A104 Demo.A104
                   None)
            (after (finishTask (Some Demo.siti) Demo.cleaning_A104 Demo.A104
                      None)
               (Demo.cleaning [])))
     = [("Cleaning", "Vacant Clean"); ("Cleaning", "Vacant Clean")]
  /\ n_title <$>
       notifications
         (app (after (finishTask (Some Demo.siti) Demo.cleaning_A104
                        Demo.A104 None)
                 (after (finishTask (Some Demo.siti) Demo.cleaning_A104
                           Demo.A104 None)
                    (Demo.cleaning []))))
     = ["Task completed"; "Status updated"; "Task completed";
        "Status updated"].
Proof. by vm_compute. Qed.

Lemma finalStatus_spec (t : TimerState) (room : Room)
    (nextStatus : option RoomStatus) :
  nextStatus <> Some "" ->
  finalStatus t room nextStatus
  = spec_nextStatus nextStatus (taskType t) (status room).
Proof.
  intros Hnext. unfold finalStatus, spec_nextStatus.
  destruct nextStatus as [s |]; cbn.
  - destruct (String.eqb_spec s "") as [-> | _]; [done | reflexivity].
  - destruct (taskType t) as [task |]; [| by repeat case_decide].
    repeat match goal with
           | |- context [String.eqb task ?k] =>
               destruct (String.eqb_spec task k) as [-> | ?]
           end;
      cbn; repeat case_decide; congruence.
Qed.

Lemma changeRoomStatus_ok_tables (user : Profile) (room : Room)
    (newStatus : RoomStatus) (notes0 : option string) (w : World) :
  db_error (env w) (requests w) = None ->
  db_error (env w) (S (requests w)) = None ->
  rooms_table (after (changeRoomStatus (Some user) room newStatus notes0) w)
  = patch_rooms (id room)
      (status_updates newStatus (clock (env w) (clock_reads w)))
      (rooms_table w)
  /\ audit_logs (after (changeRoomStatus (Some user) room newStatus notes0) w)
     = audit_logs w ++
         [ {| al_room_number := room_number room;
              changed_by := profile_id user;
              changer_name := Some (full_name user);
              changer_role := Some (role user);
              from_status := status room;
              to_status := newStatus;
              al_timestamp := clock (env w) (S (clock_reads w));
              al_notes := notes0 |} ].
Proof.
  intros Hok1 Hok2. unfold after, changeRoomStatus.
  unfold_js. cbn.
  rewrite Hok1. cbn. rewrite Hok2. by cbn.
Qed.

(** C5. [finishTask] moves the room to the status the specification
    names: the explicit [nextStatus] when one is supplied (any non-empty
    string, as every room status is), else [Vacant Clean] for a [Cleaning]
    task, [Vacant Clean Inspected] for an [Inspection], [Dirty] for a
    [Repair] or a [Maintenance], and the room's current status for any
    other task type.  With a user logged in, a log id in the timer and a
    database that answers, that status is the one written to the room's
    row and recorded as [to_status] of the one audit entry; when it is the
    room's current status, nothing is written or recorded. *)
Theorem finishTask_resolves_next_status (w : World) (user : Profile)
    (room : Room) (nextStatus : option RoomStatus) :
  currentUser (app w) = Some user ->
  truthy_string (currentLogId (timer (app w))) = true ->
  nextStatus <> Some "" ->
  db_error (env w) (requests w) = None ->
  db_error (env w) (S (requests w)) = None ->
  db_error (env w) (S (S (requests w))) = None ->
  finalStatus (timer (app w)) room nextStatus
  = spec_nextStatus nextStatus (taskType (timer (app w))) (status room)
  /\ rooms_table (after (Rendered.finishTask room nextStatus) w)
     = (if decide (spec_nextStatus nextStatus (taskType (timer (app w)))
                     (status room) = status room)
        then rooms_table w
        else patch_rooms (id room)
               (status_updates
                  (spec_nextStatus nextStatus (taskType (timer (app w)))
                     (status room))
                  (clock (env w) (S (clock_reads w))))
               (rooms_table w))
  /\ audit_logs (after (Rendered.finishTask room nextStatus) w)
     = audit_logs w ++
         (if decide (spec_nextStatus nextStatus (taskType (timer (app w)))
                       (status room) = status room)
          then []
          else [ {| al_room_number := room_number room;
                    changed_by := profile_id user;
                    changer_name := Some (full_name user);
                    changer_role := Some (role user);
                    from_status := status room;
                    to_status :=
                      spec_nextStatus nextStatus
                        (taskType (timer (app w))) (status room);
                    al_timestamp := clock (env w) (S (S (clock_reads w)));
                    al_notes :=
                      Some (interpolate (taskType (timer (app w)))
                              +:+ " completed") |} ]).
Proof.
  intros Huser Hlog Hnext Hok Hok1 Hok2.
  pose proof (finalStatus_spec (timer (app w)) room nextStatus Hnext) as Hspec.
  split; [exact Hspec |].
  destruct (finishTask_success user (timer (app w)) room nextStatus w
              Hlog Hok) as (_ & _ & _ & Htable & Haudit).
  unfold after, Rendered.finishTask in *. rewrite Huser.
  rewrite Htable, Haudit. unfold finishTask_midway.
  rewrite Hspec.
  set (w1 := after (Supabase.finishWorkLog _ _) w).
  assert (env w1 = env w /\ clock_reads w1 = S (clock_reads w)
          /\ requests w1 = S (requests w) /\ rooms_table w1 = rooms_table w
          /\ audit_logs w1 = audit_logs w)
    as (Henv & Hclock & Hreq & Htbl1 & Haud1).
  { unfold w1, after. unfold_js. cbn. by rewrite Hok. }
  destruct (decide _) as [_ | _].
  - by rewrite Htbl1, Haud1, app_nil_r.
  - destruct (changeRoomStatus_ok_tables user room
                (spec_nextStatus nextStatus (taskType (timer (app w)))
                   (status room))
                (Some (interpolate (taskType (timer (app w)))
                         +:+ " completed")) w1) as [Ht Ha].
    + by rewrite Henv, Hreq.
    + by rewrite Henv, Hreq.
    + rewrite Ht, Ha. by rewrite Henv, Hclock, Htbl1, Haud1.
Qed.

Lemma finishTask_resolves_next_status_witness :
  (fun l => (from_status l, to_status l)) <$> audit_logs
    (after (Rendered.finishTask Demo.A104 None) (Demo.cleaning []))
  = [("Cleaning", "Vacant Clean")].
Proof.
  rewrite (proj2 (proj2 (finishTask_resolves_next_status (Demo.cleaning [])
             Demo.siti Demo.A104 None eq_refl eq_refl ltac:(discriminate)
             eq_refl eq_refl eq_refl))).
  reflexivity.
Defined.

(** ** [pauseTimer] and [pauseTask] *)

(** C6 (as amended). [pauseTimer] never reads the clock.  It clears the
    start time and the running flag and keeps the accumulated elapsed
    seconds as they are: the time in flight since the last tick is not
    added.  On a timer that is not running, in any store reached from an
    idle timer by timer actions, it changes nothing.  [pauseTask] does
    nothing at all when the timer holds no log id; when it holds one and the
    work log request succeeds, the timer is left as [pauseTimer] leaves
    it. *)
Theorem pauseTimer_keeps_accumulated_elapsed (s s0 : AppState)
    (history : list TimerAction) (w : World) :
  timer (Store.pauseTimer s)
  = {| isRunning := false; startTime := None;
       elapsedTime := elapsedTime (timer s);
       currentLogId := currentLogId (timer s);
       roomNumber := roomNumber (timer s);
       taskType := taskType (timer s) |}
  /\ (timer s0 = Store.initial_timer ->
      isRunning (timer (foldl act s0 history)) = false ->
      Store.pauseTimer (foldl act s0 history) = foldl act s0 history)
  /\ (truthy_string (currentLogId (timer (app w))) = false ->
      Rendered.pauseTask w = (Return tt, w))
  /\ (truthy_string (currentLogId (timer (app w))) = true ->
      db_error (env w) (requests w) = None ->
      timer (app (after Rendered.pauseTask w))
      = timer (Store.pauseTimer (app w))).
Proof.
  split; [reflexivity |]. split; [| split].
  - intros Hinit Hidle. apply pauseTimer_idle; [done |].
    apply history_start_cleared; [| done].
    rewrite Hinit. by intros _.
  - intros Hnone. unfold Rendered.pauseTask, pauseTask. by rewrite Hnone.
  - intros Hlog Hok. unfold after, Rendered.pauseTask, pauseTask.
    rewrite Hlog.
    unfold_js. cbn. rewrite Hok. by cbn.
Qed.

Lemma pauseTimer_keeps_accumulated_elapsed_witness :
  Store.pauseTimer
    (foldl act Store.initial
       [StartTimer 1000 "log" "A104" "Cleaning"; Tick 3000; PauseTimer])
  = foldl act Store.initial
      [StartTimer 1000 "log" "A104" "Cleaning"; Tick 3000; PauseTimer]
  /\ timer (app (after Rendered.pauseTask (Demo.cleaning [])))
     = timer (Store.pauseTimer (app (Demo.cleaning []))).
Proof.
  split.
  - apply (proj1 (proj2 (pauseTimer_keeps_accumulated_elapsed
             Store.initial Store.initial
             [StartTimer 1000 "log" "A104" "Cleaning"; Tick 3000; PauseTimer]
             (Demo.cleaning []))));
      reflexivity.
  - apply (proj2 (proj2 (proj2 (pauseTimer_keeps_accumulated_elapsed
             Store.initial Store.initial [] (Demo.cleaning []))))) ;
      reflexivity.
Defined.

(** C6 (as stated) fails: Siti's timer runs with 125 seconds accumulated
    and was last re-based three seconds before the pause.  After
    [pauseTask] (and after [pauseTimer] alone) the elapsed time is still
    125 seconds, not 125 plus the three seconds in flight. *)
Lemma pauseTask_drops_time_in_flight :
  isRunning (timer (app (Demo.cleaning []))) = true
  /\ startTime (timer (app (Demo.cleaning []))) = Some 1699999997000
  /\ clock (env (Demo.cleaning [])) (clock_reads (Demo.cleaning []))
     = 1700000000000
  /\ elapsedTime (timer (app (after Rendered.pauseTask (Demo.cleaning []))))
     = 125
  /\ elapsedTime (timer (Store.pauseTimer (app (Demo.cleaning [])))) = 125
  /\ elapsedTime (timer (app (after Rendered.pauseTask (Demo.cleaning []))))
     <> elapsedTime (timer (app (Demo.cleaning [])))
        + (1700000000000 - 1699999997000) / 1000.
Proof. repeat split; by vm_compute. Qed.

(** * Further properties of the store *)

(** X1. [updateRoom] patches the rooms that have the given id and no
    other: the list keeps its length and order, a room with another id is
    kept as it is, and the rest of the store is untouched.  When no room
    has the id, the store is left exactly as it was; nothing signals the
    unknown id. *)
Theorem updateRoom_patches_matching_rooms_only (roomId : string)
    (updates : RoomUpdates) (s : AppState) :
  length (rooms (Store.updateRoom roomId updates s)) = length (rooms s)
  /\ (forall (i : nat) (r : Room),
        rooms s !! i = Some r ->
        rooms (Store.updateRoom roomId updates s) !! i
        = Some (if decide (id r = roomId) then spread r updates else r))
  /\ timer (Store.updateRoom roomId updates s) = timer s
  /\ notifications (Store.updateRoom roomId updates s) = notifications s
  /\ currentUser (Store.updateRoom roomId updates s) = currentUser s
  /\ ((forall r : Room, r ∈ rooms s -> id r <> roomId) ->
      Store.updateRoom roomId updates s = s).
Proof.
  unfold Store.updateRoom, patch_rooms. cbn.
  split; [by rewrite length_fmap |].
  split; [intros i r Hi; by rewrite list_lookup_fmap, Hi |].
  repeat split.
  intros Hnone.
  assert ((fun r => if decide (id r = roomId) then spread r updates else r)
            <$> rooms s = rooms s) as ->.
  { rewrite <- (list_fmap_id (rooms s)) at 2.
    apply list_fmap_ext. intros i r Hi. cbn.
    destruct (decide (id r = roomId)) as [Heq | _]; [| done].
    exfalso. eapply Hnone; [| exact Heq].
    by eapply list_elem_of_lookup_2. }
  by destruct s.
Qed.

Lemma take_addNotification (k : nat) (x : Notification)
    (l : list Notification) :
  take (S k) (x :: take (S k) l) = take (S k) (x :: l).
Proof. cbn. f_equal. rewrite take_take. f_equal. lia. Qed.

(** X2. After [addNotification] was called for one or more inputs, the
    store holds the 50 most recent notifications, newest first: the new
    ones in reverse order of arrival, then the old ones, cut at 50.  So
    the list never has more than 50 entries, every entry just added is
    unread, and the newest is at the head. *)
Theorem notify_keeps_50_most_recent
    (inputs : list (string * Z * NotificationInput)) (s : AppState) :
  inputs <> [] ->
  notifications (notify inputs s)
  = take 50 (reverse (stamp <$> inputs) ++ notifications s)
  /\ (length (notifications (notify inputs s)) <= 50)%nat
  /\ head (notifications (notify inputs s)) = stamp <$> last inputs.
Proof.
  intros Hne.
  assert (forall l x,
            notifications (notify (l ++ [x]) s)
            = take 50 (reverse (stamp <$> (l ++ [x])) ++ notifications s))
    as Hsnoc.
  { induction l as [| y l IH] using rev_ind; intros x.
    - reflexivity.
    - unfold notify in *. rewrite foldl_app. cbn [foldl].
      unfold Store.addNotification at 1.
      cbn [notifications with_notifications].
      rewrite IH. rewrite take_addNotification.
      rewrite (fmap_app _ (l ++ [y]) [x]), reverse_app. reflexivity. }
  destruct inputs as [| x inputs _] using rev_ind; [done |].
  rewrite Hsnoc. split; [done |]. split.
  - rewrite length_take. lia.
  - rewrite fmap_app, reverse_app, last_snoc. reflexivity.
Qed.

Lemma notify_keeps_50_most_recent_witness :
  (length
     (notifications
        (notify (replicate 60 ("id", 0%Z, mkInput "t" "m" info)) Store.initial))
   <= 50)%nat.
Proof.
  apply (notify_keeps_50_most_recent
           (replicate 60 ("id", 0%Z, mkInput "t" "m" info)) Store.initial).
  discriminate.
Defined.

Lemma mark_read_idemp (id0 : string) (n : Notification) :
  Store.mark_read id0 (Store.mark_read id0 n) = Store.mark_read id0 n.
Proof. unfold Store.mark_read. repeat (case_decide; cbn in *); done. Qed.

Lemma mark_read_comm (a b : string) (n : Notification) :
  Store.mark_read a (Store.mark_read b n)
  = Store.mark_read b (Store.mark_read a n).
Proof. unfold Store.mark_read. repeat (case_decide; cbn in *); done. Qed.

(** X3. [markNotificationRead] only sets read flags: the notifications
    keep their number, order and content; afterwards every notification
    with the given id is read, and one that was read stays read.  Marking
    twice is marking once, marking two ids can be done in either order,
    and an id that no notification has leaves the store as it was. *)
Theorem markNotificationRead_sets_read_flags_only (a b : string)
    (s : AppState) :
  content <$> notifications (Store.markNotificationRead a s)
  = content <$> notifications s
  /\ (forall n, n ∈ notifications (Store.markNotificationRead a s) ->
              n_id n = a -> n_read n = true)
  /\ (forall (i : nat) (n : Notification),
        notifications s !! i = Some n -> n_read n = true ->
        n_read <$> notifications (Store.markNotificationRead a s) !! i
        = Some true)
  /\ Store.markNotificationRead a (Store.markNotificationRead a s)
     = Store.markNotificationRead a s
  /\ Store.markNotificationRead a (Store.markNotificationRead b s)
     = Store.markNotificationRead b (Store.markNotificationRead a s)
  /\ ((forall n, n ∈ notifications s -> n_id n <> a) ->
      Store.markNotificationRead a s = s).
Proof.
  unfold Store.markNotificationRead. cbn.
  split; [| split; [| split; [| split; [| split]]]].
  - rewrite <- list_fmap_compose. apply list_fmap_ext.
    intros i n _. unfold Store.mark_read. cbn. by case_decide.
  - intros n (m & -> & _)%list_elem_of_fmap.
    unfold Store.mark_read. by case_decide.
  - intros i n Hi Hread. rewrite list_lookup_fmap, Hi. cbn.
    unfold Store.mark_read. case_decide; cbn; by rewrite ?Hread.
  - assert (Store.mark_read a <$> (Store.mark_read a <$> notifications s)
            = Store.mark_read a <$> notifications s) as ->; [| done].
    rewrite <- list_fmap_compose. apply list_fmap_ext.
    intros i n _. apply mark_read_idemp.
  - assert (Store.mark_read a <$> (Store.mark_read b <$> notifications s)
            = Store.mark_read b <$> (Store.mark_read a <$> notifications s))
      as ->; [| done].
    rewrite <- !list_fmap_compose. apply list_fmap_ext.
    intros i n _. apply mark_read_comm.
  - intros Hnone.
    assert (Store.mark_read a <$> notifications s = notifications s) as ->.
    { rewrite <- (list_fmap_id (notifications s)) at 2.
      apply list_fmap_ext. intros i n Hi. unfold Store.mark_read.
      case_decide as Heq; [| done].
      exfalso. eapply Hnone; [| exact Heq]. by eapply list_elem_of_lookup_2. }
    by destruct s.
Qed.

(** X4. Pausing and resuming keeps the accumulated seconds and the task,
    and the time spent paused is never counted: after a pause, a resume at
    clock reading [r] (not the epoch) and a tick at [n], the elapsed time is
    the one before the pause plus the whole seconds from [r] to [n].  A
    pause right after the resume gives back the paused timer. *)
Theorem pause_resume_excludes_paused_time (s : AppState) (r n : Z) :
  r <> 0 ->
  timer (Store.tick n (Store.resumeTimer r (Store.pauseTimer s)))
  = {| isRunning := true; startTime := Some n;
       elapsedTime := elapsedTime (timer s) + (n - r) / 1000;
       currentLogId := currentLogId (timer s);
       roomNumber := roomNumber (timer s);
       taskType := taskType (timer s) |}
  /\ Store.pauseTimer (Store.resumeTimer r (Store.pauseTimer s))
     = Store.pauseTimer s.
Proof.
  intros Hr. unfold Store.tick. cbn.
  destruct (Z.eqb_spec r 0) as [-> | _]; [done |]. by cbn.
Qed.

Lemma pause_resume_excludes_paused_time_witness :
  elapsedTime
    (timer (Store.tick 1700000009000
              (Store.resumeTimer 1700000007000
                 (Store.pauseTimer
                    (with_timer Demo.cleaning_A104 Store.initial)))))
  = 127.
Proof.
  rewrite (proj1 (pause_resume_excludes_paused_time
                    (with_timer Demo.cleaning_A104 Store.initial)
                    1700000007000 1700000009000 ltac:(discriminate))).
  reflexivity.
Defined.

Lemma act_task_named (s : AppState) (a : TimerAction) :
  task_named (timer s) -> task_named (timer (act s a)).
Proof.
  unfold task_named. intros Hs.
  destruct a as [now logId rn tt | | now | | | now]; cbn.
  - right. repeat split; eauto.
  - exact Hs.
  - exact Hs.
  - by left.
  - by left.
  - unfold Store.tick.
    destruct (negb (isRunning (timer s))
              || negb (truthy_number (startTime (timer s)))); exact Hs.
Qed.

(** X5. Along any history of timer actions (start, pause, resume, stop,
    reset, tick) from a store whose timer is the initial one, the timer
    names its task completely or not at all (log id, room number and task
    type are all set or all null), and a timer that is not running has no
    start time. *)
Theorem timer_history_invariants (s : AppState)
    (history : list TimerAction) :
  timer s = Store.initial_timer ->
  task_named (timer (foldl act s history))
  /\ start_cleared (timer (foldl act s history)).
Proof.
  intros Hinit. split.
  - assert (task_named (timer s)) as Hs by (rewrite Hinit; by left).
    clear Hinit. revert s Hs.
    induction history as [| a rest IH]; intros s Hs; [done |].
    cbn. apply IH. by apply act_task_named.
  - apply history_start_cleared. rewrite Hinit. by intros _.
Qed.

Lemma timer_history_invariants_witness :
  task_named
    (timer (foldl act Store.initial
              [StartTimer 1000 "log" "A104" "Cleaning"; Tick 3000;
               PauseTimer; ResumeTimer 9000; StopTimer])).
Proof.
  apply (timer_history_invariants Store.initial
           [StartTimer 1000 "log" "A104" "Cleaning"; Tick 3000;
            PauseTimer; ResumeTimer 9000; StopTimer] eq_refl).
Defined.

Lemma ticks_cons (now : Z) (nows : list Z) (s : AppState) :
  ticks (now :: nows) s = ticks nows (Store.tick now s).
Proof. reflexivity. Qed.

Lemma tick_running (now start : Z) (s : AppState) :
  isRunning (timer s) = true -> startTime (timer s) = Some start ->
  start <> 0 ->
  isRunning (timer (Store.tick now s)) = true
  /\ startTime (timer (Store.tick now s)) = Some now
  /\ elapsedTime (timer (Store.tick now s))
     = elapsedTime (timer s) + (now - start) / 1000.
Proof.
  intros Hrun Hstart Hnz. unfold Store.tick. rewrite Hrun, Hstart. cbn.
  destruct (Z.eqb_spec start 0) as [-> | _]; [done |]. by cbn.
Qed.

(** X6. How far the ticking timer may fall behind the clock.  For a
    running timer started at [start] and ticks at clock readings that do
    not go backwards (none of them the epoch), the seconds added by the
    ticks never exceed the time that passed on the clock, and fall short of
    it by less than one second per tick: each tick drops the part of a
    second that was in flight. *)
Theorem ticks_lose_less_than_a_second_each (nows : list Z) :
  forall (s : AppState) (start : Z),
    isRunning (timer s) = true ->
    startTime (timer s) = Some start ->
    Forall (fun t => t <> 0) (start :: nows) ->
    nondecreasing (start :: nows) ->
    1000 * (elapsedTime (timer (ticks nows s)) - elapsedTime (timer s))
    <= default start (last nows) - start
    /\ default start (last nows) - start
       <= 1000 * (elapsedTime (timer (ticks nows s)) - elapsedTime (timer s))
          + 999 * Z.of_nat (length nows).
Proof.
  induction nows as [| now rest IH]; intros s start Hrun Hstart Hnz Hclock.
  - cbn. lia.
  - rewrite ticks_cons.
    apply Forall_cons in Hnz as [Hnz Hrest].
    destruct (tick_running now start s Hrun Hstart Hnz)
      as (Hrun' & Hstart' & Hel).
    destruct Hclock as [Hle Hclock].
    specialize (IH (Store.tick now s) now Hrun' Hstart' Hrest Hclock).
    assert (default start (last (now :: rest)) = default now (last rest))
      as ->.
    { destruct rest as [| b rest]; [done |]. rewrite last_cons_cons.
      by destruct (last (b :: rest)) eqn:E;
        [| apply last_None in E]. }
    rewrite Hel in IH. cbn [length].
    pose proof (Z.div_mod (now - start) 1000 ltac:(lia)) as Hdm.
    pose proof (Z.mod_pos_bound (now - start) 1000 ltac:(lia)) as Hmod.
    lia.
Qed.

Lemma ticks_lose_less_than_a_second_each_witness :
  1000 * (elapsedTime
            (timer (ticks [1700000000000; 1700000000999; 1700000002000]
                      (with_timer Demo.cleaning_A104 Store.initial)))
          - 125)
  <= 1700000002000 - 1699999997000.
Proof.
  apply (ticks_lose_less_than_a_second_each
           [1700000000000; 1700000000999; 1700000002000]
           (with_timer Demo.cleaning_A104 Store.initial) 1699999997000
           eq_refl eq_refl).
  - repeat constructor; discriminate.
  - cbn. lia.
Defined.

(** ** The timer interval *)

Lemma interval_invariant (calls : list TimerInterval.Call) :
  forall t : TimerInterval.State,
    (1 <= TimerInterval.next_id t)%nat ->
    match TimerInterval.timerInterval t with
    | Some i => TimerInterval.live t = [i] /\ (1 <= i)%nat
    | None => TimerInterval.live t = []
    end ->
    let t' := foldl TimerInterval.call t calls in
    (1 <= TimerInterval.next_id t')%nat
    /\ match TimerInterval.timerInterval t' with
       | Some i => TimerInterval.live t' = [i] /\ (1 <= i)%nat
       | None => TimerInterval.live t' = []
       end.
Proof.
  induction calls as [| c rest IH]; intros t Hnext Hlive; [done |].
  cbn [foldl]. apply IH.
  - destruct c; cbn; unfold TimerInterval.startTimerInterval,
      TimerInterval.stopTimerInterval;
      destruct (TimerInterval.truthy_handle _); cbn; lia.
  - destruct c; cbn; unfold TimerInterval.startTimerInterval,
      TimerInterval.stopTimerInterval, TimerInterval.truthy_handle.
    + destruct (TimerInterval.timerInterval t) as [i |]; cbn.
      * destruct Hlive as [Hl Hi].
        destruct (Nat.eqb_spec i 0); [lia |]. cbn. rewrite Hl. cbn.
        destruct (decide (Some i <> Some i)) as [Hne | _]; [done |].
        split; [done | lia].
      * rewrite Hlive. split; [done | lia].
    + destruct (TimerInterval.timerInterval t) as [i |] eqn:Hh; cbn.
      * destruct Hlive as [Hl Hi].
        destruct (Nat.eqb_spec i 0); [lia |]. cbn. rewrite Hl. cbn.
        by destruct (decide (Some i <> Some i)) as [Hne | _].
      * by rewrite Hh.
Qed.

(** X7. After any sequence of [startTimerInterval] and
    [stopTimerInterval] calls from the module's initial state, at most one
    interval is live, and it is the one the handle holds.  A start leaves
    exactly one live interval however many starts preceded it, and a single
    stop leaves none: starts are not counted. *)
Theorem at_most_one_timer_interval (calls : list TimerInterval.Call) :
  (length (TimerInterval.live
             (foldl TimerInterval.call TimerInterval.initial calls)) <= 1)%nat
  /\ TimerInterval.live
       (foldl TimerInterval.call TimerInterval.initial calls)
     = option_list
         (TimerInterval.timerInterval
            (foldl TimerInterval.call TimerInterval.initial calls))
  /\ length (TimerInterval.live
              (foldl TimerInterval.call TimerInterval.initial
                 (calls ++ [TimerInterval.Start]))) = 1%nat
  /\ TimerInterval.live
       (foldl TimerInterval.call TimerInterval.initial
          (calls ++ [TimerInterval.Stop])) = [].
Proof.
  pose proof (interval_invariant calls TimerInterval.initial
                ltac:(cbn; lia) eq_refl) as [_ Hinv].
  pose proof (interval_invariant (calls ++ [TimerInterval.Start])
                TimerInterval.initial ltac:(cbn; lia) eq_refl) as [_ Hstart].
  pose proof (interval_invariant (calls ++ [TimerInterval.Stop])
                TimerInterval.initial ltac:(cbn; lia) eq_refl) as [_ Hstop].
  cbn zeta in *.
  repeat split.
  - destruct (TimerInterval.timerInterval _); [destruct Hinv as [-> _] |
      rewrite Hinv]; cbn; lia.
  - destruct (TimerInterval.timerInterval _); [destruct Hinv as [-> _] |
      rewrite Hinv]; done.
  - rewrite foldl_app in *. cbn [foldl TimerInterval.call] in *.
    destruct (TimerInterval.timerInterval
                (TimerInterval.startTimerInterval _)) eqn:Hh.
    + by destruct Hstart as [-> _].
    + unfold TimerInterval.startTimerInterval in Hh.
      destruct (TimerInterval.truthy_handle _); discriminate.
  - rewrite foldl_app in *. cbn [foldl TimerInterval.call] in *.
    destruct (TimerInterval.timerInterval
                (TimerInterval.stopTimerInterval _)) eqn:Hh; [| done].
    exfalso. unfold TimerInterval.stopTimerInterval in Hh.
    destruct (TimerInterval.truthy_handle
                (TimerInterval.timerInterval
                   (foldl TimerInterval.call TimerInterval.initial calls)))
      eqn:Htruthy; [discriminate |].
    rewrite Hh in Htruthy. cbn in Htruthy. rewrite Hh in Hinv.
    destruct Hinv as [_ Hn]. destruct n; [lia | discriminate].
Qed.

(** * Further properties of the selectors and the dashboards *)

Lemma filter_disjoint_or {A} (P Q : A -> Prop)
    `{forall x, Decision (P x)} `{forall x, Decision (Q x)} (l : list A) :
  (forall x, P x -> Q x -> False) ->
  filter P l ++ filter Q l ≡ₚ filter (fun x => P x \/ Q x) l.
Proof.
  intros Hdisj. induction l as [| x l IH]; [done |].
  rewrite !filter_cons.
  destruct (decide (P x)) as [HP | HP], (decide (Q x)) as [HQ | HQ].
  - destruct (Hdisj x HP HQ).
  - rewrite decide_True by auto. cbn. by rewrite IH.
  - rewrite decide_True by auto. rewrite <- Permutation_middle. by rewrite IH.
  - rewrite decide_False by tauto. done.
Qed.

Lemma grouped_by_status (rooms0 : list Room) (ss : list RoomStatus) :
  NoDup ss ->
  concat (getRoomsByStatus rooms0 <$> ss)
  ≡ₚ filter (fun r => status r ∈ ss) rooms0.
Proof.
  induction 1 as [| a ss Ha Hss IH]; cbn.
  - induction rooms0 as [| r l IHl]; [done |].
    rewrite filter_cons. by rewrite decide_False by apply not_elem_of_nil.
  - rewrite IH. unfold getRoomsByStatus.
    rewrite filter_disjoint_or by (intros r <- Hin; done).
    erewrite list_filter_iff; [done |].
    intros r. cbn. rewrite elem_of_cons. intuition congruence.
Qed.

(** X8. Grouping the rooms by status loses nothing and repeats nothing:
    the lists [getRoomsByStatus] returns for the seven statuses, put
    together, are a rearrangement of the rooms that have one of these
    statuses (all of the rooms, when every status is one of the seven).
    Each list holds, in the rooms' own order, exactly the rooms with its
    status; for an unknown status it is empty. *)
Theorem getRoomsByStatus_partitions_the_rooms (rooms0 : list Room) :
  concat (getRoomsByStatus rooms0 <$> RoomStatus_values)
  ≡ₚ filter (fun r => status r ∈ RoomStatus_values) rooms0
  /\ (Forall (fun r => status r ∈ RoomStatus_values) rooms0 ->
      concat (getRoomsByStatus rooms0 <$> RoomStatus_values) ≡ₚ rooms0)
  /\ (forall (s : RoomStatus) (r : Room),
        r ∈ getRoomsByStatus rooms0 s <-> r ∈ rooms0 /\ status r = s)
  /\ (forall s : RoomStatus, getRoomsByStatus rooms0 s `sublist_of` rooms0)
  /\ (forall s : RoomStatus,
        (forall r, r ∈ rooms0 -> status r <> s) ->
        getRoomsByStatus rooms0 s = []).
Proof.
  assert (NoDup RoomStatus_values) as Hnodup by compute_done.
  split; [by apply grouped_by_status |].
  split; [| split; [| split]].
  - intros Hall. rewrite grouped_by_status by done.
    induction Hall as [| r l Hr Hl IH]; [done |].
    rewrite filter_cons, decide_True by done. by rewrite IH.
  - intros s r. unfold getRoomsByStatus. rewrite list_elem_of_filter. tauto.
  - intros s. apply sublist_filter.
  - intros s Hnone. unfold getRoomsByStatus.
    induction rooms0 as [| r l IH]; [done |].
    rewrite filter_cons, decide_False by (apply Hnone; left).
    apply IH. intros r' Hr'. apply Hnone. by right.
Qed.

(** X9. [getRoomsByBuildingFloor] with a floor returns, in order, the
    rooms of that building on that floor; without a floor, all rooms of the
    building.  The floors split the building: a building's rooms are a
    rearrangement of its rooms floor by floor, for any list of distinct
    floors that covers the floors of its rooms. *)
Theorem getRoomsByBuildingFloor_splits_by_floor (rooms0 : list Room)
    (building0 : string) (floors : list Z) :
  (forall (f : Z) (r : Room),
      r ∈ getRoomsByBuildingFloor rooms0 building0 (Some f)
      <-> r ∈ rooms0 /\ building r = building0 /\ floor r = f)
  /\ (forall r : Room,
        r ∈ getRoomsByBuildingFloor rooms0 building0 None
        <-> r ∈ rooms0 /\ building r = building0)
  /\ (NoDup floors ->
      (forall r, r ∈ rooms0 -> building r = building0 -> floor r ∈ floors) ->
      concat ((fun f => getRoomsByBuildingFloor rooms0 building0 (Some f))
                <$> floors)
      ≡ₚ getRoomsByBuildingFloor rooms0 building0 None).
Proof.
  unfold getRoomsByBuildingFloor.
  split; [| split].
  - intros f r. rewrite list_elem_of_filter.
    split; [intros [[Hb [[=] | [= Hf]]] Hr]; auto | intros (Hr & Hb & <-); auto].
  - intros r. rewrite list_elem_of_filter.
    split; [intros [[Hb _] Hr]; auto | intros (Hr & Hb); auto].
  - intros Hnodup Hcover.
    transitivity (filter (fun r => building r = building0 /\ floor r ∈ floors)
                    rooms0).
    + clear Hcover. induction Hnodup as [| a fs Ha Hfs IH]; cbn.
      * induction rooms0 as [| r l IHl]; [done |].
        rewrite filter_cons.
        by rewrite decide_False by (intros [_ []%elem_of_nil]).
      * rewrite IH.
        rewrite filter_disjoint_or by (intros r [_ [? | [= <-]]] [_ ?]; done).
        erewrite list_filter_iff; [done |].
        intros r. cbn. rewrite elem_of_cons.
        split; [intros [[Hb [[=] | [= <-]]] | [Hb Hin]]; auto
               | intros [Hb [<- | Hin]]; auto].
    + induction rooms0 as [| r l IH]; [done |].
      rewrite !filter_cons.
      destruct (decide (building r = building0)) as [Hb | Hb].
      * rewrite !decide_True; [| by auto |].
        -- rewrite IH; [done |]. intros r' Hr'. apply Hcover. by right.
        -- split; [done |]. apply Hcover; [by left | done].
      * rewrite !decide_False by tauto.
        apply IH. intros r' Hr'. apply Hcover. by right.
Qed.

Lemma Set_from_acc (xs : list string) :
  forall seen : list string,
    NoDup seen ->
    NoDup (foldl (fun seen x =>
                    if decide (x ∈ seen) then seen else seen ++ [x]) seen xs)
    /\ (forall x,
          x ∈ foldl (fun seen x =>
                       if decide (x ∈ seen) then seen else seen ++ [x]) seen xs
          <-> x ∈ seen \/ x ∈ xs).
Proof.
  induction xs as [| y xs IH]; intros seen Hseen; cbn.
  - split; [done |]. intros x. rewrite elem_of_nil. tauto.
  - destruct (decide (y ∈ seen)) as [Hin | Hout].
    + destruct (IH seen Hseen) as [Hnd Hel]. split; [done |].
      intros x. rewrite Hel, elem_of_cons.
      split; [tauto | intros [? | [-> | ?]]; auto].
    + destruct (IH (seen ++ [y])) as [Hnd Hel].
      { apply NoDup_app. split; [done |]. split; [| apply NoDup_singleton].
        intros x Hx ->%list_elem_of_singleton. done. }
      split; [done |]. intros x.
      rewrite Hel, elem_of_app, list_elem_of_singleton, elem_of_cons. tauto.
Qed.

(** X10. [buildings] lists every building that has a room, and nothing
    else, once each, in ascending order of the strings. *)
Theorem buildings_sorted_without_duplicates (rooms0 : list Room) :
  (forall b : string,
      b ∈ buildings rooms0 <-> exists r, r ∈ rooms0 /\ building r = b)
  /\ NoDup (buildings rooms0)
  /\ Sorted String.le (buildings rooms0)
  /\ (rooms0 = [] -> buildings rooms0 = []).
Proof.
  unfold buildings.
  destruct (Set_from_acc (building <$> rooms0) [] (NoDup_nil_2))
    as [Hnd Hel].
  fold (Set_from (building <$> rooms0)) in Hnd, Hel.
  split; [| split; [| split]].
  - intros b. rewrite merge_sort_Permutation, Hel, list_elem_of_fmap.
    rewrite elem_of_nil. split.
    + intros [[] | (r & -> & Hr)]. eauto.
    + intros (r & Hr & <-). right. eauto.
  - by rewrite merge_sort_Permutation.
  - apply (Sorted_merge_sort _).
  - intros ->. reflexivity.
Qed.

Lemma count_by_statuses (rooms0 : list Room) (ss : list RoomStatus) :
  NoDup ss ->
  sum_list ((fun s => length (filter (fun r => status r = s) rooms0)) <$> ss)
  = length (filter (fun r => status r ∈ ss) rooms0).
Proof.
  intros Hss. rewrite <- (grouped_by_status rooms0 ss Hss).
  rewrite length_concat, <- list_fmap_compose. reflexivity.
Qed.

(** X11. The statistics panel counts five of the seven statuses.  Its
    five counts and the number of rooms in any other status add up to the
    total, so the five counts add up to the total exactly when no room is
    [Check-out Inspected], [Vacant Clean Inspected] or in an unknown
    status. *)
Theorem StatsPanel_counts_add_up (rooms0 : list Room) :
  (dirty (StatsPanel_stats rooms0) + cleaning (StatsPanel_stats rooms0)
   + vacantClean (StatsPanel_stats rooms0)
   + occupied (StatsPanel_stats rooms0) + ooo (StatsPanel_stats rooms0)
   + length (filter
               (fun r => status r ∉ ["Dirty"; "Cleaning"; "Vacant Clean";
                                     "Occupied"; "Out of Order"]) rooms0)
   = total (StatsPanel_stats rooms0))%nat
  /\ ((dirty (StatsPanel_stats rooms0) + cleaning (StatsPanel_stats rooms0)
       + vacantClean (StatsPanel_stats rooms0)
       + occupied (StatsPanel_stats rooms0) + ooo (StatsPanel_stats rooms0)
       = total (StatsPanel_stats rooms0))%nat
      <-> Forall (fun r => status r ∈ ["Dirty"; "Cleaning"; "Vacant Clean";
                                        "Occupied"; "Out of Order"]) rooms0).
Proof.
  pose proof (count_by_statuses rooms0
                ["Dirty"; "Cleaning"; "Vacant Clean"; "Occupied";
                 "Out of Order"] ltac:(compute_done)) as Hsum.
  cbn [fmap list_fmap sum_list sum_list_with] in Hsum.
  unfold Datatypes.id in Hsum.
  pose proof (filter_app_complement
                (fun r => status r ∈ ["Dirty"; "Cleaning"; "Vacant Clean";
                                      "Occupied"; "Out of Order"]) rooms0)
    as Hsplit.
  apply Permutation_length in Hsplit. rewrite length_app in Hsplit.
  unfold StatsPanel_stats. cbn [total dirty cleaning vacantClean occupied ooo].
  split; [lia |].
  rewrite Forall_forall. split.
  - intros Heq r Hr.
    destruct (decide (status r ∈ ["Dirty"; "Cleaning"; "Vacant Clean";
                                  "Occupied"; "Out of Order"]))
      as [Hin | Hout]; [done |].
    assert (r ∈ filter (fun r => status r ∉ ["Dirty"; "Cleaning";
               "Vacant Clean"; "Occupied"; "Out of Order"]) rooms0) as Hf
      by (by apply list_elem_of_filter).
    destruct (filter _ rooms0) eqn:E in Hf; [by apply elem_of_nil in Hf |].
    rewrite E in Hsplit. cbn in Hsplit. lia.
  - intros Hall.
    assert (filter (fun r => status r ∉ ["Dirty"; "Cleaning";
              "Vacant Clean"; "Occupied"; "Out of Order"]) rooms0 = [])
      as Hnone.
    { clear Hsum Hsplit. induction rooms0 as [| r l IH]; [done |].
      rewrite filter_cons, decide_False.
      - apply IH. intros r' Hr'. apply Hall. by right.
      - intros Hout. apply Hout, Hall. by left. }
    rewrite Hnone in Hsplit. cbn in Hsplit. lia.
Qed.

Lemma roomsByStatus_snoc (member_text : string -> string) (l : list Room)
    (r : Room) :
  roomsByStatus (l ++ [r]) member_text
  = assign (roomsByStatus l member_text) (status r)
      (count_up member_text (roomsByStatus l member_text) (status r)).
Proof. unfold roomsByStatus. by rewrite foldl_app. Qed.

(** X12. When no room's status is the name of a member of
    [Object.prototype], the manager dashboard's [roomsByStatus] has, for
    each status, the number of rooms that have it, the length of what
    [getRoomsByStatus] returns, as its own property of that name; a status
    that no room has is not a property of it. *)
Theorem roomsByStatus_counts_rooms (member_text : string -> string)
    (rooms0 : list Room) (s : RoomStatus) :
  (forall r, r ∈ rooms0 -> status r ∉ Object_prototype_names) ->
  roomsByStatus rooms0 member_text !! s
  = match length (getRoomsByStatus rooms0 s) with
    | O => None
    | S n => Some (Number (S n))
    end
  /\ (roomsByStatus rooms0 member_text !! s = None
      <-> forall r, r ∈ rooms0 -> status r <> s).
Proof.
  unfold getRoomsByStatus.
  induction rooms0 as [| r l IH] using rev_ind; intros Hproto.
  - split; [done |]. split; [by intros _ r ?%elem_of_nil | done].
  - destruct IH as [IHcount IHnone].
    { intros r' Hr'. apply Hproto, elem_of_app. by left. }
    assert (status r ∉ Object_prototype_names) as Hr.
    { apply Hproto, elem_of_app. right. by left. }
    assert (status r <> "__proto__") as Hsetter.
    { intros Heq. apply Hr. rewrite Heq. compute_done. }
    rewrite roomsByStatus_snoc, filter_app, length_app, filter_cons.
    unfold assign. rewrite decide_False by done.
    destruct (decide (status r = s)) as [<- | Hne].
    + rewrite lookup_insert_eq. cbn [length filter]. split.
      * unfold count_up. rewrite IHcount.
        destruct (length (filter (fun r0 => status r0 = status r) l));
          [by rewrite decide_False | cbn; do 2 f_equal; lia].
      * split; [done |]. intros Hnone. exfalso.
        apply (Hnone r); [| done]. apply elem_of_app. right. by left.
    + rewrite lookup_insert_ne by done. cbn [length filter]. split.
      * by rewrite IHcount, Nat.add_0_r.
      * rewrite IHnone. split.
        -- intros Hl r' [Hr' | ->%list_elem_of_singleton]%elem_of_app; auto.
        -- intros Hl r' Hr'. apply Hl, elem_of_app. by left.
Qed.

Lemma roomsByStatus_counts_rooms_witness :
  roomsByStatus Demo.demoRooms (fun _ => "native") !! "Dirty"
  = Some (Number 1).
Proof.
  apply (roomsByStatus_counts_rooms (fun _ => "native") Demo.demoRooms).
  apply Forall_forall. compute_done.
Defined.

(** ** [formatDuration] *)

Lemma two_digits :
  Forall (fun x : Z => String.length (padStart2 (pretty x)) = 2%nat)
    (seqZ 0 100)
  /\ NoDup ((fun x : Z => padStart2 (pretty x)) <$> seqZ 0 100).
Proof. split; compute_done. Qed.

Lemma two_digits_length (x : Z) :
  0 <= x < 100 -> String.length (padStart2 (pretty x)) = 2%nat.
Proof.
  intros Hx. destruct two_digits as [Hlen _].
  rewrite Forall_forall in Hlen. apply Hlen, elem_of_seqZ. lia.
Qed.

Lemma two_digits_inj (x y : Z) :
  0 <= x < 100 -> 0 <= y < 100 ->
  padStart2 (pretty x) = padStart2 (pretty y) -> x = y.
Proof.
  intros Hx Hy Heq. destruct two_digits as [_ Hnd].
  assert (seqZ 0 100 !! Z.to_nat x = Some x) as Hix
    by (rewrite lookup_seqZ; lia).
  assert (seqZ 0 100 !! Z.to_nat y = Some y) as Hiy
    by (rewrite lookup_seqZ; lia).
  assert (Z.to_nat x = Z.to_nat y) as Hi; [| lia].
  eapply (NoDup_lookup _ _ _ (padStart2 (pretty x)) Hnd).
  - by rewrite list_lookup_fmap, Hix.
  - by rewrite list_lookup_fmap, Hiy, Heq.
Qed.

Lemma string_length_app (s t : string) :
  String.length (s +:+ t) = (String.length s + String.length t)%nat.
Proof.
  induction s as [| c s IH]; [done |].
  change (S (String.length (s +:+ t))
          = S (String.length s + String.length t)).
  by rewrite IH.
Qed.

Lemma string_app_inj_length (s1 s2 t1 t2 : string) :
  String.length s1 = String.length s2 ->
  s1 +:+ t1 = s2 +:+ t2 -> s1 = s2 /\ t1 = t2.
Proof.
  revert s2. induction s1 as [| c s1 IH]; intros [| d s2] Hlen Heq;
    try done.
  change (String c (s1 +:+ t1) = String d (s2 +:+ t2)) in Heq.
  injection Heq as -> Heq. injection Hlen as Hlen.
  destruct (IH s2) as [-> ->]; auto.
Qed.

(** X13. For a duration from 0 seconds up to (not including) 100 hours,
    [formatDuration] returns exactly eight characters (HH:MM:SS), and two
    different durations are never shown alike. *)
Theorem formatDuration_eight_characters_injective (a b : Z) :
  0 <= a < 360000 -> 0 <= b < 360000 ->
  String.length (formatDuration a) = 8%nat
  /\ (formatDuration a = formatDuration b -> a = b).
Proof.
  intros Ha Hb.
  assert (forall x, 0 <= x < 360000 ->
            0 <= x / 3600 < 100 /\ 0 <= Z.rem x 3600 / 60 < 100
            /\ 0 <= Z.rem x 60 < 100
            /\ x = 3600 * (x / 3600) + 60 * (Z.rem x 3600 / 60) + Z.rem x 60)
    as Hparts.
  { intros x Hx. rewrite !Z.rem_mod_nonneg by lia.
    Z.div_mod_to_equations. lia. }
  destruct (Hparts a Ha) as (Hha & Hma & Hsa & Hsum_a).
  destruct (Hparts b Hb) as (Hhb & Hmb & Hsb & Hsum_b).
  unfold formatDuration. cbn zeta. split.
  - rewrite !string_length_app, !two_digits_length by done. reflexivity.
  - intros Heq.
    apply string_app_inj_length in Heq as [Hh Heq];
      [| by rewrite !two_digits_length].
    apply (string_app_inj_length ":" ":") in Heq as [_ Heq]; [| done].
    apply string_app_inj_length in Heq as [Hm Heq];
      [| by rewrite !two_digits_length].
    apply (string_app_inj_length ":" ":") in Heq as [_ Hs]; [| done].
    apply two_digits_inj in Hh, Hm, Hs; try done. lia.
Qed.

Lemma formatDuration_eight_characters_injective_witness :
  String.length (formatDuration 125) = 8%nat.
Proof.
  apply (formatDuration_eight_characters_injective 125 0); lia.
Defined.

(** ** The room modal *)

(** X14. The start buttons of the room modal against its transition
    table.  The modal offers at most one task, and none for the room the
    timer already names.  Starting the offered task either keeps the
    room's status or makes a move that the table allows.  The status the
    task's default finish then leads to is again a move of the table, with
    one exception: an inspection started on a [Check-out Inspected] room
    finishes to [Vacant Clean Inspected], which is not in that room's row. *)
Theorem modal_tasks_against_the_table (role0 : option UserRole)
    (t : TimerState) (room : Room) (task : TaskType) (now : Z)
    (logId : string) :
  task ∈ startButtons role0 t room ->
  hasActiveTask t room = false
  /\ startButtons role0 t room = [task]
  /\ (startStatus room task = status room
      \/ startStatus room task ∈ availableStatuses (status room))
  /\ (finalStatus
        {| isRunning := true; startTime := Some now; elapsedTime := 0;
           currentLogId := Some logId;
           roomNumber := Some (room_number room); taskType := Some task |}
        (spread room (status_updates (startStatus room task) now)) None
      ∈ availableStatuses (startStatus room task)
      <-> ~ (task = "Inspection" /\ status room = "Check-out Inspected")).
Proof.
  unfold startButtons, canClean, canInspect, canRepair.
  destruct (hasActiveTask t room); cbn [negb andb].
  { rewrite !andb_false_r. cbn. by intros ?%elem_of_nil. }
  rewrite !andb_true_r.
  destruct role0 as [[] |]; cbn [bool_decide]; intros Htask.
  all: repeat case_bool_decide; cbn in Htask.
  all: repeat match goal with
         | H : _ ∈ [] |- _ => by apply elem_of_nil in H
         | H : _ ∈ _ :: _ |- _ => apply elem_of_cons in H as [H | H]
         end.
  all: try done.
  all: subst task.
  all: split; [done |].
  all: try congruence.
  all: unfold startStatus, finalStatus; cbn.
  all: repeat match goal with
         | H : status _ = _ |- _ => rewrite !H; clear H
         end.
  all: split; [reflexivity | split; compute_done].
Qed.

Lemma modal_tasks_against_the_table_witness :
  startButtons (Some Housekeeping) Store.initial_timer Demo.A101
  = ["Cleaning"].
Proof.
  apply (modal_tasks_against_the_table (Some Housekeeping)
           Store.initial_timer Demo.A101 "Cleaning" 0 "log").
  compute_done.
Defined.

(** X15. The supervisor's inspection form.  A score of 80 or more leads
    to [Vacant Clean Inspected], a lower one to [Dirty]; [finishTask] takes
    this explicit status whatever task the timer holds.  Both outcomes are
    moves of the table from [Vacant Clean]; neither is one from
    [Check-out Inspected], the other status the dashboard lists for
    inspection. *)
Theorem inspection_outcome_against_the_table (score : Z) (t : TimerState)
    (room : Room) :
  (80 <= score -> status_after score = "Vacant Clean Inspected")
  /\ (score < 80 -> status_after score = "Dirty")
  /\ finalStatus t room (Some (status_after score)) = status_after score
  /\ status_after score ∈ availableStatuses "Vacant Clean"
  /\ status_after score ∉ availableStatuses "Check-out Inspected".
Proof.
  unfold status_after, finalStatus.
  destruct (Z.leb_spec 80 score); cbn.
  - repeat split; try lia; compute_done.
  - repeat split; try lia; compute_done.
Qed.

(** * Sessions of the hook *)

Lemma hook_step_refl (w : World) : hook_step w w.
Proof.
  split; try done.
  - exists []. by rewrite app_nil_r.
  - exists []. by rewrite app_nil_r.
Qed.

Lemma hook_step_trans (w1 w2 w3 : World) :
  hook_step w1 w2 -> hook_step w2 w3 -> hook_step w1 w3.
Proof.
  intros [He1 Hu1 (a1 & Ha1 & Hf1) Ht1 Hr1 (l1 & Hl1)]
         [He2 Hu2 (a2 & Ha2 & Hf2) Ht2 Hr2 (l2 & Hl2)].
  split.
  - congruence.
  - congruence.
  - exists (a1 ++ a2). split; [by rewrite Ha2, Ha1, app_assoc |].
    apply Forall_app. split; [done |]. by rewrite <- Hu1.
  - congruence.
  - congruence.
  - exists (l1 ++ l2). by rewrite Hl2, Hl1, app_assoc.
Qed.

(** A step that leaves the rooms and the audit trail alone. *)
Lemma hook_step_quiet (w w' : World) :
  env w' = env w ->
  currentUser (app w') = currentUser (app w) ->
  rooms (app w') = rooms (app w) ->
  rooms_table w' = rooms_table w ->
  audit_logs w' = audit_logs w ->
  (exists new,
      log_identity <$> work_logs w'
      = (log_identity <$> work_logs w) ++ new) ->
  hook_step w w'.
Proof.
  intros He Hu Hr Ht Ha Hl. split; try done.
  - exists []. by rewrite app_nil_r.
  - by rewrite Ht.
  - by rewrite Hr.
Qed.

Lemma patch_rooms_status_identity (roomId : string)
    (newStatus : RoomStatus) (now : Z) (rs : list Room) :
  (fun r => (id r, room_number r, assigned_to r))
    <$> patch_rooms roomId (status_updates newStatus now) rs
  = (fun r => (id r, room_number r, assigned_to r)) <$> rs.
Proof.
  unfold patch_rooms. rewrite <- list_fmap_compose.
  apply list_fmap_ext. intros i r _. cbn. by destruct (decide _).
Qed.

Lemma update_work_log_ids (logId : string) (f : WorkLog -> WorkLog)
    (ls : list WorkLog) :
  (forall l, log_identity (f l) = log_identity l) ->
  log_identity
    <$> ((fun l => if decide (wl_id l = logId) then f l else l) <$> ls)
  = log_identity <$> ls.
Proof.
  intros Hf. rewrite <- list_fmap_compose.
  apply list_fmap_ext. intros i l _. cbn. by destruct (decide _).
Qed.

Lemma changeRoomStatus_hook_step (room : Room) (newStatus : RoomStatus)
    (notes0 : option string) (w : World) :
  hook_step w
    (after (changeRoomStatus (currentUser (app w)) room newStatus notes0) w).
Proof.
  unfold after, changeRoomStatus.
  destruct (currentUser (app w)) as [user |] eqn:Huser.
  - unfold_js. cbn.
    destruct (db_error (env w) (requests w)); cbn.
    { apply hook_step_quiet; cbn; try done. exists []. by rewrite app_nil_r. }
    destruct (db_error (env w) (S (requests w))); cbn.
    + split; cbn; try done.
      * exists []. by rewrite app_nil_r.
      * apply patch_rooms_status_identity.
      * exists []. by rewrite app_nil_r.
    + split; cbn; try done.
      * eexists. split; [done |]. rewrite Huser. by repeat constructor.
      * apply patch_rooms_status_identity.
      * apply patch_rooms_status_identity.
      * exists []. by rewrite app_nil_r.
  - unfold_js. cbn.
    apply hook_step_quiet; cbn; try done. exists []. by rewrite app_nil_r.
Qed.

Lemma store_ok_notified (s : AppState) (rnd : string) (now : Z)
    (n : NotificationInput) :
  task_named (timer s) -> running_has_log (timer s) ->
  start_cleared (timer s) ->
  store_ok (Store.addNotification rnd now n s).
Proof.
  intros. repeat split; try done. cbn. rewrite length_take. lia.
Qed.

Lemma changeRoomStatus_store_ok (user : option Profile) (room : Room)
    (newStatus : RoomStatus) (notes0 : option string) (w : World) :
  task_named (timer (app w)) -> running_has_log (timer (app w)) ->
  start_cleared (timer (app w)) ->
  store_ok (app (after (changeRoomStatus user room newStatus notes0) w)).
Proof.
  intros Hnamed Hlog Hstart. unfold after, changeRoomStatus.
  destruct user as [user |]; unfold_js; cbn.
  - destruct (db_error (env w) (requests w)); cbn;
      [by apply store_ok_notified |].
    destruct (db_error (env w) (S (requests w))); cbn;
      by apply store_ok_notified.
  - by apply store_ok_notified.
Qed.

Lemma startTask_ok (room : Room) (taskType0 : TaskType) (w : World) :
  (exists r, result (Rendered.startTask room taskType0) w = Return r)
  /\ hook_step w (after (Rendered.startTask room taskType0) w)
  /\ (store_ok (app w) ->
      store_ok (app (after (Rendered.startTask room taskType0) w))).
Proof.
  unfold result, after.
  destruct (Rendered.startTask room taskType0 w) as [res w'] eqn:Hrun.
  unfold Rendered.startTask, startTask in Hrun.
  destruct (currentUser (app w)) as [user |] eqn:Huser.
  2: { injection Hrun as <- <-. split; [eauto |].
       split; [apply hook_step_refl | done]. }
  remember (changeRoomStatus (Some user)) as change eqn:Hchange.
  unfold_js in Hrun. cbn in Hrun.
  destruct (db_error (env w) (requests w)) as [e |]; cbn in Hrun.
  { injection Hrun as <- <-. split; [eauto |]. split.
    - apply hook_step_quiet; cbn; try done. exists []. by rewrite app_nil_r.
    - intros (? & ? & ? & ?). by apply store_ok_notified. }
  destruct (decide (startStatus room taskType0 = status room)) as [_ | _].
  - injection Hrun as <- <-. split; [eauto |]. split.
    + apply hook_step_quiet; cbn; try done.
      rewrite fmap_app. eauto.
    + intros _. apply store_ok_notified; cbn.
      * right. repeat split; eauto.
      * intros _. eauto.
      * intros [=].
  - match type of Hrun with
    | context [change ?r ?s ?n ?w1] =>
        pose proof (changeRoomStatus_frame (Some user) r s n w1)
          as (Hres & _ & Htimer & _);
        pose proof (changeRoomStatus_hook_step r s n w1) as Hstep;
        assert (currentUser (app w1) = Some user) as Hu1 by (by cbn);
        rewrite Hu1 in Hstep; clear Hu1;
        assert (hook_step w w1) as Hstep0;
        [| unfold result, after in Hres, Htimer, Hstep;
           rewrite <- Hchange in Hres, Htimer, Hstep;
           destruct (change r s n w1) as [res1 w2] ]
    end.
    { apply hook_step_quiet; cbn; try done. rewrite fmap_app. eauto. }
    cbn in *. subst res1. injection Hrun as <- <-.
    split; [eauto |]. split.
    + eapply hook_step_trans; [exact Hstep0 |].
      eapply hook_step_trans; [exact Hstep |].
      apply hook_step_quiet; cbn; try done. exists []. by rewrite app_nil_r.
    + intros _. apply store_ok_notified; rewrite Htimer.
      * right. repeat split; eauto.
      * intros _. eauto.
      * intros [=].
Qed.

Lemma pauseTask_ok (w : World) :
  result Rendered.pauseTask w = Return tt
  /\ hook_step w (after Rendered.pauseTask w)
  /\ (store_ok (app w) -> store_ok (app (after Rendered.pauseTask w))).
Proof.
  unfold result, after, Rendered.pauseTask, pauseTask.
  destruct (truthy_string (currentLogId (timer (app w)))).
  2: { split; [done |]. split; [apply hook_step_refl | done]. }
  unfold_js. cbn.
  destruct (db_error (env w) (requests w)); cbn.
  - split; [done |]. split.
    + apply hook_step_quiet; cbn; try done. exists []. by rewrite app_nil_r.
    + intros (? & ? & ? & ?). by apply store_ok_notified.
  - split; [done |]. split.
    + apply hook_step_quiet; cbn; try done. exists [].
      rewrite app_nil_r. by apply update_work_log_ids.
    + intros (Hnamed & ? & ? & ?). by apply store_ok_notified.
Qed.

Lemma resumeTask_ok (w : World) :
  result Rendered.resumeTask w = Return tt
  /\ hook_step w (after Rendered.resumeTask w)
  /\ (store_ok (app w) -> store_ok (app (after Rendered.resumeTask w))).
Proof.
  unfold result, after, Rendered.resumeTask, resumeTask.
  destruct (truthy_string (currentLogId (timer (app w)))) eqn:Hlog.
  2: { split; [done |]. split; [apply hook_step_refl | done]. }
  unfold_js. cbn.
  destruct (db_error (env w) (requests w)); cbn.
  - split; [done |]. split.
    + apply hook_step_quiet; cbn; try done. exists []. by rewrite app_nil_r.
    + intros (? & ? & ? & ?). by apply store_ok_notified.
  - split; [done |]. split.
    + apply hook_step_quiet; cbn; try done. exists [].
      rewrite app_nil_r. by apply update_work_log_ids.
    + intros (Hnamed & ? & ? & ?). apply store_ok_notified; cbn.
      * exact Hnamed.
      * intros _. by destruct (currentLogId (timer (app w))).
      * intros [=].
Qed.

Lemma finishTask_ok (room : Room) (nextStatus : option RoomStatus)
    (w : World) :
  result (Rendered.finishTask room nextStatus) w = Return tt
  /\ hook_step w (after (Rendered.finishTask room nextStatus) w)
  /\ (store_ok (app w) ->
      store_ok (app (after (Rendered.finishTask room nextStatus) w))).
Proof.
  unfold result, after.
  destruct (Rendered.finishTask room nextStatus w) as [res w'] eqn:Hrun.
  unfold Rendered.finishTask, finishTask in Hrun.
  destruct (truthy_string (currentLogId (timer (app w))));
    cbn [negb orb] in Hrun.
  2: { injection Hrun as <- <-.
       split; [done |]. split; [apply hook_step_refl | done]. }
  destruct (currentUser (app w)) as [user |] eqn:Huser.
  2: { injection Hrun as <- <-.
       split; [done |]. split; [apply hook_step_refl | done]. }
  remember (changeRoomStatus (Some user)) as change eqn:Hchange.
  unfold_js in Hrun. cbn in Hrun.
  destruct (db_error (env w) (requests w)) as [e |]; cbn in Hrun.
  { injection Hrun as <- <-. split; [done |]. split.
    - apply hook_step_quiet; cbn; try done. exists []. by rewrite app_nil_r.
    - intros (? & ? & ? & ?). by apply store_ok_notified. }
  assert (forall (s : AppState) rnd now n,
            store_ok (Store.resetTimer
                        (Store.stopTimer (Store.addNotification rnd now n s))))
    as Hreset.
  { intros s rnd now n. repeat split; cbn.
    - by left.
    - intros [=].
    - rewrite length_take. lia. }
  destruct (decide (finalStatus (timer (app w)) room nextStatus = status room))
    as [_ | _].
  - injection Hrun as <- <-. split; [done |]. split.
    + apply hook_step_quiet; cbn; try done. exists [].
      rewrite app_nil_r. by apply update_work_log_ids.
    + intros _. apply Hreset.
  - match type of Hrun with
    | context [change ?r ?s ?n ?w1] =>
        pose proof (changeRoomStatus_frame (Some user) r s n w1)
          as (Hres & _);
        pose proof (changeRoomStatus_hook_step r s n w1) as Hstep;
        assert (currentUser (app w1) = Some user) as Hu1 by (by cbn);
        rewrite Hu1 in Hstep; clear Hu1;
        assert (hook_step w w1) as Hstep0;
        [| unfold result, after in Hres, Hstep;
           rewrite <- Hchange in Hres, Hstep;
           destruct (change r s n w1) as [res1 w2] ]
    end.
    { apply hook_step_quiet; cbn; try done. exists [].
      rewrite app_nil_r. by apply update_work_log_ids. }
    cbn in *. subst res1. injection Hrun as <- <-.
    split; [done |]. split.
    + eapply hook_step_trans; [exact Hstep0 |].
      eapply hook_step_trans; [exact Hstep |].
      apply hook_step_quiet; cbn; try done. exists []. by rewrite app_nil_r.
    + intros _. apply Hreset.
Qed.

Lemma tick_ok (w : World) :
  result tick w = Return tt
  /\ hook_step w (after tick w)
  /\ (store_ok (app w) -> store_ok (app (after tick w))).
Proof.
  unfold result, after, tick.
  destruct (negb (isRunning (timer (app w)))
            || negb (truthy_number (startTime (timer (app w))))) eqn:Hguard.
  { split; [done |]. split; [apply hook_step_refl | done]. }
  unfold_js. cbn. split; [done |]. split.
  - apply hook_step_quiet; cbn; try done.
    + unfold Store.tick. by rewrite Hguard.
    + unfold Store.tick. by rewrite Hguard.
    + exists []. by rewrite app_nil_r.
  - intros (Hnamed & Hlog & Hstart & Hlen).
    unfold Store.tick. rewrite Hguard.
    apply orb_false_elim in Hguard as [Hrun _].
    apply negb_false_iff in Hrun.
    split; [exact Hnamed |]. split; [exact Hlog |]. split; [| exact Hlen].
    unfold start_cleared. cbn. rewrite Hrun. discriminate.
Qed.

Lemma perform_ok (c : HookCall) (w : World) :
  result (perform c) w = Return tt
  /\ hook_step w (after (perform c) w)
  /\ (store_ok (app w) -> store_ok (app (after (perform c) w))).
Proof.
  destruct c as [room s n | room tt | | | room next |]; cbn [perform].
  - unfold Rendered.changeRoomStatus.
    destruct (changeRoomStatus_frame (currentUser (app w)) room s n w)
      as (Hres & _).
    split; [exact Hres |]. split; [apply changeRoomStatus_hook_step |].
    intros (? & ? & ? & _). by apply changeRoomStatus_store_ok.
  - destruct (startTask_ok room tt w) as ([r Hres] & Hstep & Hok).
    unfold result, after, bind in *.
    destruct (Rendered.startTask room tt w) as [res w']. cbn in *.
    subst res. by cbn.
  - apply pauseTask_ok.
  - apply resumeTask_ok.
  - apply finishTask_ok.
  - apply tick_ok.
Qed.

Lemma session_ok (calls : list HookCall) :
  forall w : World,
    hook_step w (session calls w)
    /\ (store_ok (app w) -> store_ok (app (session calls w))).
Proof.
  induction calls as [| c rest IH]; intros w.
  - split; [apply hook_step_refl | done].
  - cbn. destruct (perform_ok c w) as (_ & Hstep & Hok).
    destruct (IH (after (perform c) w)) as [Hsteps Hoks].
    split; [by eapply hook_step_trans | auto].
Qed.

(** X16. No call of the hook rejects, however the database answers:
    [changeRoomStatus], [pauseTask], [resumeTask], [finishTask] and the
    interval's tick return, and [startTask] returns a log id or nothing.
    A failing request never reaches the caller as an exception. *)
Theorem hook_calls_always_return (c : HookCall) (w : World) (room : Room)
    (taskType0 : TaskType) :
  result (perform c) w = Return tt
  /\ exists r, result (Rendered.startTask room taskType0) w = Return r.
Proof.
  split; [apply perform_ok | apply startTask_ok].
Qed.

(** X17. Over any session, whatever the database answers, the audit
    trail only grows: the entries it had stay, in place, and every entry
    added names the user who is logged in as the one who made the change.
    With nobody logged in, the audit trail does not change. *)
Theorem audit_trail_append_only_and_attributed (calls : list HookCall)
    (w : World) :
  (exists new,
      audit_logs (session calls w) = audit_logs w ++ new
      /\ Forall (fun e => Some (changed_by e)
                          = profile_id <$> currentUser (app w)) new)
  /\ (currentUser (app w) = None ->
      audit_logs (session calls w) = audit_logs w).
Proof.
  destruct (session_ok calls w) as [[_ _ (new & Hnew & Hby) _ _ _] _].
  split; [eauto |].
  intros Hnone. rewrite Hnew, Hnone in *.
  destruct Hby as [| e new [=] _]. by rewrite app_nil_r.
Qed.


(** X19. Over any session, whatever the database answers, no work log
    is deleted and the columns written at a log's creation (id, room,
    staff member, task type, start time, description) are never rewritten:
    the logs that existed are still there, in place, followed by the logs
    the session created. *)
Theorem session_keeps_work_logs (calls : list HookCall) (w : World) :
  exists new,
    log_identity <$> work_logs (session calls w)
    = (log_identity <$> work_logs w) ++ new.
Proof. by destruct (session_ok calls w) as [[_ _ _ _ _ Hlogs] _]. Qed.

(** X20. Over any session, whatever the database answers, a store that
    satisfies the following keeps satisfying it: the timer names its task
    completely or not at all; a running timer holds a log id; a timer that
    is not running has no start time; there are at most 50 notifications.
    The initial store satisfies it. *)
Theorem session_keeps_store_invariants (calls : list HookCall) (w : World) :
  store_ok (app w) ->
  task_named (timer (app (session calls w)))
  /\ running_has_log (timer (app (session calls w)))
  /\ start_cleared (timer (app (session calls w)))
  /\ (length (notifications (app (session calls w))) <= 50)%nat.
Proof. intros Hok. by apply session_ok. Qed.

Lemma session_keeps_store_invariants_witness :
  running_has_log
    (timer (app (session
                   [StartTask Demo.A101 "Cleaning"; IntervalTick; PauseTask;
                    ResumeTask; FinishTask Demo.A101 None; ResumeTask]
                   (Demo.world [(3%nat, "offline")] (Some Demo.siti)
                      Store.initial_timer)))).
Proof.
  apply (session_keeps_store_invariants
           [StartTask Demo.A101 "Cleaning"; IntervalTick; PauseTask;
            ResumeTask; FinishTask Demo.A101 None; ResumeTask]
           (Demo.world [(3%nat, "offline")] (Some Demo.siti)
              Store.initial_timer)).
  repeat split; cbn; try done; [by left | lia].
Defined.

(** * Further properties of the hook's functions *)

Lemma startTask_run (user : Profile) (room : Room) (taskType0 : TaskType)
    (w : World) :
  db_error (env w) (requests w) = None ->
  startTask (Some user) room taskType0 w
  = (Return (Some (generated_id (env w) (length (work_logs w)))),
     after (addNotification
              {| title := "Task started";
                 message := taskType0 +:+ " started for room "
                              +:+ room_number room;
                 type := success |})
       (startTask_midway user room taskType0 w)).
Proof.
  intros Hok. unfold startTask_midway, startTask.
  remember (changeRoomStatus (Some user)) as change eqn:Hchange.
  unfold after. unfold_js. cbn. rewrite Hok. cbn.
  destruct (decide (startStatus room taskType0 = status room)) as [_ | _];
    [done |].
  match goal with
  | |- context [change ?r ?s ?n ?w1] =>
      pose proof (changeRoomStatus_frame (Some user) r s n w1) as (Hres & _);
      unfold result in Hres; rewrite <- Hchange in Hres;
      destruct (change r s n w1) as [res1 w2]
  end.
  cbn in *. by subst res1.
Qed.

Lemma finishTask_run (user : Profile) (t : TimerState) (room : Room)
    (nextStatus : option RoomStatus) (w : World) :
  truthy_string (currentLogId t) = true ->
  db_error (env w) (requests w) = None ->
  finishTask (Some user) t room nextStatus w
  = (Return tt,
     after resetTimer
       (after stopTimer
          (after (addNotification
                    {| title := "Task completed";
                       message := interpolate (taskType t)
                                    +:+ " completed for room "
                                    +:+ room_number room +:+ " in "
                                    +:+ formatDuration (elapsedTime t);
                       type := success |})
             (finishTask_midway user t room nextStatus w)))).
Proof.
  intros Hlog Hok. unfold finishTask_midway, finishTask. rewrite Hlog.
  remember (changeRoomStatus (Some user)) as change eqn:Hchange.
  unfold after. unfold_js. cbn. rewrite Hok. cbn.
  destruct (decide (finalStatus t room nextStatus = status room)) as [_ | _];
    [done |].
  match goal with
  | |- context [change ?r ?s ?n ?w1] =>
      pose proof (changeRoomStatus_frame (Some user) r s n w1) as (Hres & _);
      unfold result in Hres; rewrite <- Hchange in Hres;
      destruct (change r s n w1) as [res1 w2]
  end.
  cbn in *. by subst res1.
Qed.

Lemma changeRoomStatus_update_fails (user : Profile) (room : Room)
    (newStatus : RoomStatus) (notes0 : option string) (w : World)
    (e : string) :
  db_error (env w) (requests w) = Some e ->
  changeRoomStatus (Some user) room newStatus notes0 w
  = (Return tt,
     {| env := env w; clock_reads := S (S (clock_reads w));
        random_draws := S (random_draws w); requests := S (requests w);
        app := with_notifications
                 (take 50
                    ({| n_id := random (env w) (random_draws w);
                        n_title := "Error updating status";
                        n_message := e; n_type := error;
                        n_timestamp := clock (env w) (S (clock_reads w));
                        n_read := false |} :: notifications (app w)))
                 (app w);
        rooms_table := rooms_table w; work_logs := work_logs w;
        audit_logs := audit_logs w |}).
Proof.
  intros Hfail. unfold changeRoomStatus. unfold_js. cbn.
  rewrite Hfail. reflexivity.
Qed.

(** X21. When the request that updates the room's row fails,
    [changeRoomStatus] stops there: it returns, one request was sent, and
    the [rooms] table, the audit trail, the work logs and the store's rooms
    and timer are as before; the store differs only by the error
    notification "Error updating status" with the error's message. *)
Theorem changeRoomStatus_update_failure (w : World) (user : Profile)
    (room : Room) (newStatus : RoomStatus) (notes0 : option string)
    (e : string) :
  currentUser (app w) = Some user ->
  db_error (env w) (requests w) = Some e ->
  result (Rendered.changeRoomStatus room newStatus notes0) w = Return tt
  /\ requests (after (Rendered.changeRoomStatus room newStatus notes0) w)
     = S (requests w)
  /\ rooms_table (after (Rendered.changeRoomStatus room newStatus notes0) w)
     = rooms_table w
  /\ audit_logs (after (Rendered.changeRoomStatus room newStatus notes0) w)
     = audit_logs w
  /\ work_logs (after (Rendered.changeRoomStatus room newStatus notes0) w)
     = work_logs w
  /\ app (after (Rendered.changeRoomStatus room newStatus notes0) w)
     = with_notifications
         (take 50
            ({| n_id := random (env w) (random_draws w);
                n_title := "Error updating status";
                n_message := e; n_type := error;
                n_timestamp := clock (env w) (S (clock_reads w));
                n_read := false |} :: notifications (app w)))
         (app w).
Proof.
  intros Huser Hfail. unfold result, after, Rendered.changeRoomStatus.
  rewrite Huser, (changeRoomStatus_update_fails _ _ _ _ _ e Hfail).
  by repeat split.
Qed.

Lemma changeRoomStatus_update_failure_witness :
  status <$> rooms_table
    (after (Rendered.changeRoomStatus Demo.A101 "Cleaning" None)
       (Demo.world [(0%nat, "offline")] (Some Demo.siti) Store.initial_timer))
  = ["Dirty"; "Cleaning"; "Out of Order"].
Proof.
  rewrite (proj1 (proj2 (proj2 (changeRoomStatus_update_failure
             (Demo.world [(0%nat, "offline")] (Some Demo.siti)
                Store.initial_timer)
             Demo.siti Demo.A101 "Cleaning" None "offline"
             eq_refl eq_refl)))).
  reflexivity.
Defined.

(** X22. What [startTask] does when it cannot start.  With nobody logged
    in it returns nothing and leaves the world exactly as it was, without
    a notification.  When the request that creates the work log fails, it
    returns nothing, no work log exists, the timer, the tables and the
    rooms are as before, and the store differs only by the error
    notification "Error starting task". *)
Theorem startTask_does_not_start (w : World) (room : Room)
    (taskType0 : TaskType) :
  (currentUser (app w) = None ->
   Rendered.startTask room taskType0 w = (Return None, w))
  /\ (forall e : string,
        is_Some (currentUser (app w)) ->
        db_error (env w) (requests w) = Some e ->
        result (Rendered.startTask room taskType0) w = Return None
        /\ work_logs (after (Rendered.startTask room taskType0) w)
           = work_logs w
        /\ rooms_table (after (Rendered.startTask room taskType0) w)
           = rooms_table w
        /\ audit_logs (after (Rendered.startTask room taskType0) w)
           = audit_logs w
        /\ app (after (Rendered.startTask room taskType0) w)
           = with_notifications
               (take 50
                  ({| n_id := random (env w) (random_draws w);
                      n_title := "Error starting task";
                      n_message := e; n_type := error;
                      n_timestamp := clock (env w) (S (clock_reads w));
                      n_read := false |} :: notifications (app w)))
               (app w)).
Proof.
  unfold result, after, Rendered.startTask, startTask. split.
  - by intros ->.
  - intros e [user ->] Hfail. unfold_js. cbn. rewrite Hfail. by cbn.
Qed.

(** The world right after the work log was created and the timer
    started. *)
Lemma startTask_started (user : Profile) (room : Room)
    (taskType0 : TaskType) (w : World) :
  db_error (env w) (requests w) = None ->
  after (startTimer (generated_id (env w) (length (work_logs w)))
           (room_number room) taskType0)
    (after (Supabase.createWorkLog (room_number room) (profile_id user)
              taskType0
              (Some (taskType0 +:+ " started for room "
                       +:+ room_number room))) w)
  = {| env := env w; clock_reads := S (S (clock_reads w));
       random_draws := random_draws w; requests := S (requests w);
       app := Store.startTimer (clock (env w) (S (clock_reads w)))
                (generated_id (env w) (length (work_logs w)))
                (room_number room) taskType0 (app w);
       rooms_table := rooms_table w;
       work_logs :=
         work_logs w ++
           [ {| wl_id := generated_id (env w) (length (work_logs w));
                wl_room_number := room_number room;
                wl_staff_id := profile_id user;
                wl_task_type := taskType0;
                wl_start_time := clock (env w) (clock_reads w);
                wl_pause_time := None; wl_end_time := None;
                wl_total_duration := None;
                wl_description :=
                  Some (taskType0 +:+ " started for room "
                          +:+ room_number room);
                wl_status := InProgress |} ];
       audit_logs := audit_logs w |}.
Proof. intros Hok. unfold after. unfold_js. cbn. by rewrite Hok. Qed.

(** X23. The status change a started task implies.  [Cleaning] implies
    [Cleaning], [Repair] and [Maintenance] imply [Out of Order], any other
    task type (an inspection) implies none.  With a user logged in and the
    work log created: when the implied status is the room's, [startTask]
    sends no further request and leaves tables, audit trail and rooms
    alone; otherwise, with a database that answers, it sets the room's row
    to the implied status and appends one audit entry from the room's
    status to it, noted "<task type> started". *)
Theorem startTask_status_change_by_task_type (w : World) (user : Profile)
    (room : Room) (taskType0 : TaskType) :
  currentUser (app w) = Some user ->
  db_error (env w) (requests w) = None ->
  (taskType0 = "Cleaning" -> startStatus room taskType0 = "Cleaning")
  /\ (taskType0 = "Repair" \/ taskType0 = "Maintenance" ->
      startStatus room taskType0 = "Out of Order")
  /\ (taskType0 ∉ ["Cleaning"; "Repair"; "Maintenance"] ->
      startStatus room taskType0 = status room)
  /\ (startStatus room taskType0 = status room ->
      requests (after (Rendered.startTask room taskType0) w)
      = S (requests w)
      /\ rooms_table (after (Rendered.startTask room taskType0) w)
         = rooms_table w
      /\ audit_logs (after (Rendered.startTask room taskType0) w)
         = audit_logs w
      /\ rooms (app (after (Rendered.startTask room taskType0) w))
         = rooms (app w))
  /\ (startStatus room taskType0 <> status room ->
      db_error (env w) (S (requests w)) = None ->
      db_error (env w) (S (S (requests w))) = None ->
      rooms_table (after (Rendered.startTask room taskType0) w)
      = patch_rooms (id room)
          (status_updates (startStatus room taskType0)
             (clock (env w) (S (S (clock_reads w)))))
          (rooms_table w)
      /\ audit_logs (after (Rendered.startTask room taskType0) w)
         = audit_logs w ++
             [ {| al_room_number := room_number room;
                  changed_by := profile_id user;
                  changer_name := Some (full_name user);
                  changer_role := Some (role user);
                  from_status := status room;
                  to_status := startStatus room taskType0;
                  al_timestamp := clock (env w) (S (S (S (clock_reads w))));
                  al_notes := Some (taskType0 +:+ " started") |} ]).
Proof.
  intros Huser Hok.
  split; [| split; [| split]].
  - intros ->. reflexivity.
  - intros [-> | ->]; reflexivity.
  - intros Hother. unfold startStatus.
    repeat (case_decide; [subst; exfalso; apply Hother; set_solver |]).
    reflexivity.
  - unfold after, Rendered.startTask. rewrite Huser, startTask_run by done.
    unfold startTask_midway. rewrite startTask_started by done.
    split.
    + intros Hsame. rewrite decide_True by done. by cbn.
    + intros Hdiff Hok1 Hok2. rewrite decide_False by done.
      match goal with
      | |- context [after (changeRoomStatus ?u ?r ?s ?n) ?w1] =>
          destruct (changeRoomStatus_ok_tables user r s n w1 Hok1 Hok2)
            as [Ht Ha]
      end.
      cbn in Ht, Ha. unfold after in *. cbn. by rewrite Ht, Ha.
Qed.

Lemma startTask_status_change_by_task_type_witness :
  (fun l => (from_status l, to_status l, al_notes l)) <$> audit_logs
    (after (Rendered.startTask Demo.A101 "Cleaning")
       (Demo.world [] (Some Demo.siti) Store.initial_timer))
  = [("Dirty", "Cleaning", Some "Cleaning started")].
Proof.
  destruct (proj2 (proj2 (proj2 (proj2
              (startTask_status_change_by_task_type
                 (Demo.world [] (Some Demo.siti) Store.initial_timer)
                 Demo.siti Demo.A101 "Cleaning" eq_refl eq_refl))))
              ltac:(discriminate) eq_refl eq_refl) as [_ Haudit].
  rewrite Haudit. reflexivity.
Defined.

(** X24. A task starts even when its status change fails.  With a user
    logged in and the work log created, when the implied status differs
    from the room's and the request that updates the room's row fails,
    [startTask] still returns the new log's id with the timer running for
    it; the room keeps its status in the table and in the store, the audit
    trail has no new entry, and the notification "Task started" is put on
    top of the error "Error updating status". *)
Theorem startTask_proceeds_when_status_change_fails (w : World)
    (user : Profile) (room : Room) (taskType0 : TaskType) (e : string) :
  currentUser (app w) = Some user ->
  db_error (env w) (requests w) = None ->
  startStatus room taskType0 <> status room ->
  db_error (env w) (S (requests w)) = Some e ->
  result (Rendered.startTask room taskType0) w
  = Return (Some (generated_id (env w) (length (work_logs w))))
  /\ isRunning (timer (app (after (Rendered.startTask room taskType0) w)))
     = true
  /\ currentLogId
       (timer (app (after (Rendered.startTask room taskType0) w)))
     = Some (generated_id (env w) (length (work_logs w)))
  /\ rooms_table (after (Rendered.startTask room taskType0) w)
     = rooms_table w
  /\ rooms (app (after (Rendered.startTask room taskType0) w))
     = rooms (app w)
  /\ audit_logs (after (Rendered.startTask room taskType0) w)
     = audit_logs w
  /\ notifications (app (after (Rendered.startTask room taskType0) w))
     = take 50
         ({| n_id := random (env w) (S (random_draws w));
             n_title := "Task started";
             n_message := taskType0 +:+ " started for room "
                            +:+ room_number room;
             n_type := success;
             n_timestamp :=
               clock (env w) (S (S (S (S (clock_reads w)))));
             n_read := false |}
          :: take 50
               ({| n_id := random (env w) (random_draws w);
                   n_title := "Error updating status";
                   n_message := e; n_type := error;
                   n_timestamp := clock (env w) (S (S (S (clock_reads w))));
                   n_read := false |} :: notifications (app w))).
Proof.
  intros Huser Hok Hdiff Hfail.
  unfold result, after, Rendered.startTask.
  rewrite Huser, startTask_run by done.
  unfold startTask_midway. rewrite startTask_started by done.
  rewrite decide_False by done. unfold after.
  rewrite (changeRoomStatus_update_fails _ _ _ _ _ e) by done.
  cbn. by repeat split.
Qed.

Lemma startTask_proceeds_when_status_change_fails_witness :
  status <$> rooms_table
    (after (Rendered.startTask Demo.A101 "Cleaning")
       (Demo.world [(1%nat, "offline")] (Some Demo.siti)
          Store.initial_timer))
  = ["Dirty"; "Cleaning"; "Out of Order"].
Proof.
  rewrite (proj1 (proj2 (proj2 (proj2
             (startTask_proceeds_when_status_change_fails
                (Demo.world [(1%nat, "offline")] (Some Demo.siti)
                   Store.initial_timer)
                Demo.siti Demo.A101 "Cleaning" "offline"
                eq_refl eq_refl ltac:(discriminate) eq_refl))))).
  reflexivity.
Defined.

(** X25. Pausing and resuming through the hook.  With a log id in the
    timer and a database that answers both requests, [pauseTask] followed
    by [resumeTask] leaves the timer running with the elapsed seconds,
    log, room and task it had, re-based at the clock reading of the resume;
    the work log is back [In Progress] with no pause time and records, as
    total duration, the elapsed seconds at the pause.  Other work logs are
    untouched. *)
Theorem pauseTask_resumeTask_round_trip (w : World) (logId : string) :
  currentLogId (timer (app w)) = Some logId ->
  logId <> "" ->
  db_error (env w) (requests w) = None ->
  db_error (env w) (S (requests w)) = None ->
  timer (app (after Rendered.resumeTask (after Rendered.pauseTask w)))
  = {| isRunning := true;
       startTime := Some (clock (env w) (S (S (clock_reads w))));
       elapsedTime := elapsedTime (timer (app w));
       currentLogId := Some logId;
       roomNumber := roomNumber (timer (app w));
       taskType := taskType (timer (app w)) |}
  /\ (forall (i : nat) (l : WorkLog),
        work_logs w !! i = Some l ->
        work_logs (after Rendered.resumeTask (after Rendered.pauseTask w))
          !! i
        = Some (if decide (wl_id l = logId)
                then {| wl_id := wl_id l;
                        wl_room_number := wl_room_number l;
                        wl_staff_id := wl_staff_id l;
                        wl_task_type := wl_task_type l;
                        wl_start_time := wl_start_time l;
                        wl_pause_time := None;
                        wl_end_time := wl_end_time l;
                        wl_total_duration :=
                          Some (elapsedTime (timer (app w)));
                        wl_description := wl_description l;
                        wl_status := InProgress |}
                else l)).
Proof.
  intros Hlog Hne Hok1 Hok2.
  assert (truthy_string (Some logId) = true) as Htruthy.
  { cbn. by destruct (String.eqb_spec logId ""). }
  unfold after, Rendered.resumeTask, Rendered.pauseTask, pauseTask.
  rewrite Hlog, Htruthy. unfold_js. cbn. rewrite Hok1. cbn.
  unfold resumeTask. cbn. rewrite Hlog, Htruthy. unfold_js. cbn.
  rewrite Hok2. cbn. split; [by rewrite Hlog |].
  intros i l Hi. rewrite !list_lookup_fmap, Hi. cbn.
  f_equal.
  destruct (decide (wl_id l = logId)) as [Hid | Hid]; cbn.
  - by rewrite decide_True by done.
  - by rewrite decide_False by done.
Qed.

Lemma pauseTask_resumeTask_round_trip_witness :
  elapsedTime
    (timer (app (after Rendered.resumeTask
                   (after Rendered.pauseTask (Demo.cleaning [])))))
  = 125.
Proof.
  rewrite (proj1 (pauseTask_resumeTask_round_trip (Demo.cleaning []) "log"
                    eq_refl ltac:(discriminate) eq_refl eq_refl)).
  reflexivity.
Defined.

(** X26. A pause or a resume whose request fails changes nothing but the
    notifications: the timer is as it was (a running timer keeps running, a
    paused one stays paused), no work log is rewritten, and the store gets
    the error notification "Error pausing task" or "Error resuming task"
    with the error's message. *)
Theorem pauseTask_resumeTask_request_failure (w : World) (e : string) :
  truthy_string (currentLogId (timer (app w))) = true ->
  db_error (env w) (requests w) = Some e ->
  (result Rendered.pauseTask w = Return tt
   /\ work_logs (after Rendered.pauseTask w) = work_logs w
   /\ app (after Rendered.pauseTask w)
      = with_notifications
          (take 50
             ({| n_id := random (env w) (random_draws w);
                 n_title := "Error pausing task";
                 n_message := e; n_type := error;
                 n_timestamp := clock (env w) (S (clock_reads w));
                 n_read := false |} :: notifications (app w)))
          (app w))
  /\ (result Rendered.resumeTask w = Return tt
      /\ work_logs (after Rendered.resumeTask w) = work_logs w
      /\ app (after Rendered.resumeTask w)
         = with_notifications
             (take 50
                ({| n_id := random (env w) (random_draws w);
                    n_title := "Error resuming task";
                    n_message := e; n_type := error;
                    n_timestamp := clock (env w) (clock_reads w);
                    n_read := false |} :: notifications (app w)))
             (app w)).
Proof.
  intros Hlog Hfail.
  unfold result, after, Rendered.pauseTask, Rendered.resumeTask, pauseTask,
    resumeTask.
  rewrite Hlog. unfold_js. cbn. rewrite Hfail. by cbn.
Qed.

Lemma pauseTask_resumeTask_request_failure_witness :
  timer (app (after Rendered.pauseTask (Demo.cleaning [(0%nat, "offline")])))
  = Demo.cleaning_A104.
Proof.
  rewrite (proj2 (proj2 (proj1 (pauseTask_resumeTask_request_failure
             (Demo.cleaning [(0%nat, "offline")]) "offline"
             eq_refl eq_refl)))).
  reflexivity.
Defined.

(** X27. A [finishTask] whose work log request fails leaves the task
    outstanding: it returns, the timer, the work logs, the [rooms] table,
    the audit trail and the store's rooms are as before, and the store
    differs only by the error notification "Error completing task".  A
    second [finishTask] whose work log request succeeds then finishes the
    task and resets the timer. *)
Theorem finishTask_request_failure_then_retry (w : World) (user : Profile)
    (room : Room) (nextStatus : option RoomStatus) (e : string) :
  currentUser (app w) = Some user ->
  truthy_string (currentLogId (timer (app w))) = true ->
  db_error (env w) (requests w) = Some e ->
  result (Rendered.finishTask room nextStatus) w = Return tt
  /\ work_logs (after (Rendered.finishTask room nextStatus) w) = work_logs w
  /\ rooms_table (after (Rendered.finishTask room nextStatus) w)
     = rooms_table w
  /\ audit_logs (after (Rendered.finishTask room nextStatus) w)
     = audit_logs w
  /\ app (after (Rendered.finishTask room nextStatus) w)
     = with_notifications
         (take 50
            ({| n_id := random (env w) (random_draws w);
                n_title := "Error completing task";
                n_message := e; n_type := error;
                n_timestamp := clock (env w) (S (clock_reads w));
                n_read := false |} :: notifications (app w)))
         (app w)
  /\ (db_error (env w) (S (requests w)) = None ->
      timer (app (after (Rendered.finishTask room nextStatus)
                    (after (Rendered.finishTask room nextStatus) w)))
      = Store.initial_timer).
Proof.
  intros Huser Hlog Hfail.
  assert (Rendered.finishTask room nextStatus w
          = (Return tt,
             {| env := env w; clock_reads := S (S (clock_reads w));
                random_draws := S (random_draws w);
                requests := S (requests w);
                app := with_notifications
                         (take 50
                            ({| n_id := random (env w) (random_draws w);
                                n_title := "Error completing task";
                                n_message := e; n_type := error;
                                n_timestamp :=
                                  clock (env w) (S (clock_reads w));
                                n_read := false |}
                             :: notifications (app w)))
                         (app w);
                rooms_table := rooms_table w; work_logs := work_logs w;
                audit_logs := audit_logs w |})) as Hrun.
  { unfold Rendered.finishTask, finishTask. rewrite Huser, Hlog.
    unfold_js. cbn. rewrite Hfail. reflexivity. }
  unfold result, after. rewrite Hrun. cbn [fst snd].
  repeat split.
  intros Hok.
  match goal with
  | |- context [Rendered.finishTask room nextStatus ?w1] =>
      destruct (finishTask_success user (timer (app w1)) room nextStatus w1)
        as (_ & Htimer & _); [exact Hlog | exact Hok |];
      unfold after in Htimer; unfold Rendered.finishTask;
      cbn [app currentUser with_notifications timer] in *
  end.
  rewrite Huser. exact Htimer.
Qed.

Lemma finishTask_request_failure_then_retry_witness :
  timer (app (after (Rendered.finishTask Demo.A104 None)
                (Demo.cleaning [(0%nat, "offline")])))
  = Demo.cleaning_A104.
Proof.
  destruct (finishTask_request_failure_then_retry
              (Demo.cleaning [(0%nat, "offline")]) Demo.siti Demo.A104 None
              "offline" eq_refl eq_refl eq_refl)
    as (_ & _ & _ & _ & Happ & _).
  rewrite Happ. reflexivity.
Defined.

(** X28. A task is completed even when its status change fails.  With a
    user logged in, a log id in the timer and a work log request that
    succeeds, a [finishTask] whose room update then fails still returns,
    finishes the work log, announces "Task completed" after the error
    notification and resets the timer, while the room keeps its status in
    the table and in the store and no audit entry is written. *)
Theorem finishTask_completes_when_status_change_fails (w : World)
    (user : Profile) (room : Room) (nextStatus : option RoomStatus)
    (e : string) :
  currentUser (app w) = Some user ->
  truthy_string (currentLogId (timer (app w))) = true ->
  finalStatus (timer (app w)) room nextStatus <> status room ->
  db_error (env w) (requests w) = None ->
  db_error (env w) (S (requests w)) = Some e ->
  result (Rendered.finishTask room nextStatus) w = Return tt
  /\ timer (app (after (Rendered.finishTask room nextStatus) w))
     = Store.initial_timer
  /\ work_logs (after (Rendered.finishTask room nextStatus) w)
     = work_logs
         (after (Supabase.finishWorkLog
                   (default "" (currentLogId (timer (app w))))
                   (elapsedTime (timer (app w)))) w)
  /\ rooms_table (after (Rendered.finishTask room nextStatus) w)
     = rooms_table w
  /\ rooms (app (after (Rendered.finishTask room nextStatus) w))
     = rooms (app w)
  /\ audit_logs (after (Rendered.finishTask room nextStatus) w)
     = audit_logs w
  /\ n_title <$>
       notifications (app (after (Rendered.finishTask room nextStatus) w))
     = take 50
         ("Task completed"
          :: take 50
               ("Error updating status"
                :: (n_title <$> notifications (app w)))).
Proof.
  intros Huser Hlog Hfinal Hok Hfail.
  unfold result, after, Rendered.finishTask. rewrite Huser.
  rewrite (finishTask_run user _ room nextStatus w Hlog Hok).
  unfold finishTask_midway. cbv zeta. rewrite decide_False by done.
  unfold after.
  match goal with
  | |- context [changeRoomStatus (Some user) room ?s ?n ?w1] =>
      rewrite (changeRoomStatus_update_fails user room s n w1 e)
  end.
  - unfold Supabase.finishWorkLog. unfold_js. cbn. rewrite Hok. cbn.
    repeat split. by rewrite !fmap_take.
  - unfold Supabase.finishWorkLog. unfold_js. cbn. rewrite Hok.
    exact Hfail.
Qed.

Lemma finishTask_completes_when_status_change_fails_witness :
  status <$> rooms_table
    (after (Rendered.finishTask Demo.A104 None)
       (Demo.cleaning [(1%nat, "offline")]))
  = ["Dirty"; "Cleaning"; "Out of Order"].
Proof.
  destruct (finishTask_completes_when_status_change_fails
              (Demo.cleaning [(1%nat, "offline")]) Demo.siti Demo.A104 None
              "offline" eq_refl eq_refl ltac:(discriminate) eq_refl eq_refl)
    as (_ & _ & _ & Htable & _).
  rewrite Htable. reflexivity.
Defined.

(** The world after a [startTask] that created its work log and changed
    the room's status. *)
Lemma startTask_with_status_change (user : Profile) (room : Room)
    (taskType0 : TaskType) (w : World) :
  currentUser (app w) = Some user ->
  startStatus room taskType0 <> status room ->
  db_error (env w) (requests w) = None ->
  db_error (env w) (S (requests w)) = None ->
  db_error (env w) (S (S (requests w))) = None ->
  env (after (Rendered.startTask room taskType0) w) = env w
  /\ requests (after (Rendered.startTask room taskType0) w)
     = S (S (S (requests w)))
  /\ currentUser (app (after (Rendered.startTask room taskType0) w))
     = Some user
  /\ timer (app (after (Rendered.startTask room taskType0) w))
     = {| isRunning := true;
          startTime := Some (clock (env w) (S (clock_reads w)));
          elapsedTime := 0;
          currentLogId := Some (generated_id (env w) (length (work_logs w)));
          roomNumber := Some (room_number room);
          taskType := Some taskType0 |}
  /\ audit_logs (after (Rendered.startTask room taskType0) w)
     = audit_logs w ++
         [ {| al_room_number := room_number room;
              changed_by := profile_id user;
              changer_name := Some (full_name user);
              changer_role := Some (role user);
              from_status := status room;
              to_status := startStatus room taskType0;
              al_timestamp := clock (env w) (S (S (S (clock_reads w))));
              al_notes := Some (taskType0 +:+ " started") |} ].
Proof.
  intros Huser Hstart Hok0 Hok1 Hok2.
  unfold after, Rendered.startTask.
  rewrite Huser. unfold startTask, changeRoomStatus. unfold_js. cbn.
  rewrite Hok0. cbn. rewrite decide_False by done. cbn.
  rewrite Hok1. cbn. rewrite Hok2. cbn. by repeat split.
Qed.

(** X29. The audit entry of a status change records, as the old status,
    the status of the room object the caller passed, not the one in the
    table.  After a [startTask] that moved the room to the status of its
    task, a [finishTask] called with a room object [room'] writes an entry
    from [status room']: called with the object the task was started with,
    the trail shows two changes that both leave the status the room had
    before the task. *)
Theorem finishTask_audits_the_status_of_its_room_object (w : World)
    (user : Profile) (room room' : Room) (taskType0 : TaskType) :
  currentUser (app w) = Some user ->
  generated_id (env w) (length (work_logs w)) <> "" ->
  startStatus room taskType0 <> status room ->
  finalStatus (timer (app (after (Rendered.startTask room taskType0) w)))
    room' None <> status room' ->
  (forall k : nat, (k < 6)%nat ->
     db_error (env w) (k + requests w) = None) ->
  (fun a => (from_status a, to_status a)) <$>
    audit_logs (after (Rendered.finishTask room' None)
                  (after (Rendered.startTask room taskType0) w))
  = ((fun a => (from_status a, to_status a)) <$> audit_logs w)
      ++ [ (status room, startStatus room taskType0);
           (status room',
            finalStatus
              (timer (app (after (Rendered.startTask room taskType0) w)))
              room' None) ].
Proof.
  intros Huser Hid Hstart Hfinal Hok.
  pose proof (Hok 0%nat ltac:(lia)) as Hok0.
  pose proof (Hok 1%nat ltac:(lia)) as Hok1.
  pose proof (Hok 2%nat ltac:(lia)) as Hok2.
  pose proof (Hok 3%nat ltac:(lia)) as Hok3.
  pose proof (Hok 4%nat ltac:(lia)) as Hok4.
  pose proof (Hok 5%nat ltac:(lia)) as Hok5.
  cbn [Nat.add] in *.
  destruct (startTask_with_status_change user room taskType0 w
              Huser Hstart Hok0 Hok1 Hok2)
    as (Henv & Hreq & Huser1 & Htimer & Haudit).
  remember (after (Rendered.startTask room taskType0) w) as w1 eqn:Hw1.
  assert (truthy_string (currentLogId (timer (app w1))) = true) as Htruthy.
  { rewrite Htimer. cbn.
    by destruct (String.eqb_spec
                   (generated_id (env w) (length (work_logs w))) ""). }
  assert (db_error (env w1) (requests w1) = None) as Hok3'
    by (by rewrite Henv, Hreq).
  destruct (finishTask_success user (timer (app w1)) room' None w1
              Htruthy Hok3') as (_ & _ & _ & _ & Hlogs).
  unfold after, Rendered.finishTask in *. rewrite Huser1, Hlogs.
  unfold finishTask_midway. cbv zeta. rewrite decide_False by done.
  match goal with
  | |- context [after (changeRoomStatus (Some user) room' ?s ?n) ?w2] =>
      destruct (changeRoomStatus_ok_tables user room' s n w2) as [_ Hlast]
  end.
  - unfold after, Supabase.finishWorkLog. unfold_js. cbn.
    rewrite Hok3'. cbn. by rewrite Henv, Hreq.
  - unfold after, Supabase.finishWorkLog. unfold_js. cbn.
    rewrite Hok3'. cbn. by rewrite Henv, Hreq.
  - rewrite Hlast.
    replace (audit_logs (after (Supabase.finishWorkLog
                                  (default "" (currentLogId (timer (app w1))))
                                  (elapsedTime (timer (app w1)))) w1))
      with (audit_logs w1)
      by (unfold after, Supabase.finishWorkLog; unfold_js; cbn;
          by rewrite Hok3').
    rewrite Haudit, !fmap_app, <- app_assoc. reflexivity.
Qed.

Lemma finishTask_audits_the_status_of_its_room_object_witness :
  (fun a => (from_status a, to_status a)) <$>
    audit_logs (after (Rendered.finishTask Demo.A101 None)
                  (after (Rendered.startTask Demo.A101 "Cleaning")
                     (Demo.world [] (Some Demo.siti) Store.initial_timer)))
  = [ ("Dirty", "Cleaning"); ("Dirty", "Vacant Clean") ].
Proof.
  rewrite (finishTask_audits_the_status_of_its_room_object
             (Demo.world [] (Some Demo.siti) Store.initial_timer)
             Demo.siti Demo.A101 Demo.A101 "Cleaning" eq_refl
             ltac:(vm_compute; discriminate)
             ltac:(vm_compute; discriminate)
             ltac:(vm_compute; discriminate)
             ltac:(intros k _; reflexivity)).
  vm_compute. reflexivity.
Defined.

(** X30. The timer is not tied to the user.  Logging out leaves the timer
    as it is, and while nobody is logged in [startTask] and [finishTask]
    leave the world untouched.  After another user logs in, the timer is
    still the one of the task in progress, and that user's [finishTask]
    completes the work log in the timer, resets the timer and signs the
    audit entry of the status change with the new user's id. *)
Theorem timer_survives_logout_and_login (w : World) (user2 : Profile)
    (room : Room) (taskType0 : TaskType) (nextStatus : option RoomStatus) :
  truthy_string (currentLogId (timer (app w))) = true ->
  finalStatus (timer (app w)) room nextStatus <> status room ->
  db_error (env w) (requests w) = None ->
  db_error (env w) (S (requests w)) = None ->
  db_error (env w) (S (S (requests w))) = None ->
  timer (app (after (set handleLogout) w)) = timer (app w)
  /\ Rendered.startTask room taskType0 (after (set handleLogout) w)
     = (Return None, after (set handleLogout) w)
  /\ Rendered.finishTask room nextStatus (after (set handleLogout) w)
     = (Return tt, after (set handleLogout) w)
  /\ timer (app (after (set (handleRoleSelect user2))
                   (after (set handleLogout) w)))
     = timer (app w)
  /\ timer (app (after (Rendered.finishTask room nextStatus)
                   (after (set (handleRoleSelect user2))
                      (after (set handleLogout) w))))
     = Store.initial_timer
  /\ work_logs (after (Rendered.finishTask room nextStatus)
                  (after (set (handleRoleSelect user2))
                     (after (set handleLogout) w)))
     = work_logs
         (after (Supabase.finishWorkLog
                   (default "" (currentLogId (timer (app w))))
                   (elapsedTime (timer (app w)))) w)
  /\ changed_by <$>
       audit_logs (after (Rendered.finishTask room nextStatus)
                     (after (set (handleRoleSelect user2))
                        (after (set handleLogout) w)))
     = (changed_by <$> audit_logs w) ++ [profile_id user2].
Proof.
  intros Hlog Hfinal Hok0 Hok1 Hok2.
  split; [reflexivity |].
  split.
  { unfold Rendered.startTask, startTask, after, set, handleLogout.
    reflexivity. }
  split.
  { unfold Rendered.finishTask, finishTask, after, set, handleLogout. cbn.
    by rewrite Hlog. }
  split; [reflexivity |].
  remember (after (set (handleRoleSelect user2))
              (after (set handleLogout) w)) as w2 eqn:Hw2.
  assert (timer (app w2) = timer (app w)) as Htimer by (by subst w2).
  assert (currentUser (app w2) = Some user2) as Huser by (by subst w2).
  assert (env w2 = env w) as Henv by (by subst w2).
  assert (requests w2 = requests w) as Hreq by (by subst w2).
  assert (work_logs w2 = work_logs w) as Hwl by (by subst w2).
  assert (audit_logs w2 = audit_logs w) as Hal by (by subst w2).
  assert (clock_reads w2 = clock_reads w) as Hclock by (by subst w2).
  clear Hw2.
  assert (db_error (env w2) (requests w2) = None) as Hok0'
    by (by rewrite Henv, Hreq).
  assert (truthy_string (currentLogId (timer (app w2))) = true) as Hlog'
    by (by rewrite Htimer).
  destruct (finishTask_success user2 (timer (app w2)) room nextStatus w2
              Hlog' Hok0') as (_ & Hreset & _ & _ & Haudit).
  pose proof (finishTask_run user2 (timer (app w2)) room nextStatus w2
                Hlog' Hok0') as Hrun.
  change (after (Rendered.finishTask room nextStatus) w2)
    with (after (finishTask (currentUser (app w2)) (timer (app w2)) room
                   nextStatus) w2).
  rewrite Huser.
  split; [exact Hreset |].
  assert (forall w', env w' = env w -> requests w' = requests w ->
            clock_reads w' = clock_reads w -> work_logs w' = work_logs w ->
            audit_logs w' = audit_logs w ->
            let w1 := after (Supabase.finishWorkLog
                               (default "" (currentLogId (timer (app w))))
                               (elapsedTime (timer (app w)))) w' in
            env w1 = env w /\ requests w1 = S (requests w)
            /\ audit_logs w1 = audit_logs w
            /\ work_logs w1
               = work_logs
                   (after (Supabase.finishWorkLog
                             (default "" (currentLogId (timer (app w))))
                             (elapsedTime (timer (app w)))) w)) as Hlogged.
  { intros w' He Hr Hc Hw Ha. unfold after, Supabase.finishWorkLog.
    unfold_js. cbn. rewrite He, Hr, Hok0. cbn.
    by rewrite ?He, ?Hc, ?Hw, ?Ha. }
  destruct (Hlogged w2 Henv Hreq Hclock Hwl Hal)
    as (Henv1 & Hreq1 & Hal1 & Hwl1).
  clear Hlogged.
  split.
  - unfold after at 1. rewrite Hrun. cbn [snd].
    remember (finishTask_midway user2 (timer (app w2)) room nextStatus w2)
      as wm eqn:Hwm.
    transitivity (work_logs wm); [by destruct wm |].
    subst wm. unfold finishTask_midway. cbv zeta. rewrite Htimer.
    rewrite decide_False by done.
    match goal with
    | |- context [after (changeRoomStatus ?u ?r ?s ?n) ?w1] =>
        destruct (changeRoomStatus_frame u r s n w1)
          as (_ & _ & _ & _ & Hsame & _)
    end.
    by rewrite Hsame.
  - rewrite Haudit. unfold finishTask_midway. cbv zeta. rewrite Htimer.
    rewrite decide_False by done.
    match goal with
    | |- context [after (changeRoomStatus (Some user2) room ?s ?n) ?w1] =>
        destruct (changeRoomStatus_ok_tables user2 room s n w1)
          as [_ Hlast]
    end.
    + by rewrite Henv1, Hreq1.
    + by rewrite Henv1, Hreq1.
    + rewrite Hlast, Hal1, fmap_app. reflexivity.
Qed.

Lemma timer_survives_logout_and_login_witness :
  changed_by <$>
    audit_logs (after (Rendered.finishTask Demo.A104 None)
                  (after (set (handleRoleSelect
                                 {| profile_id := "2";
                                    full_name := "Budi";
                                    role := Supervisor |}))
                     (after (set handleLogout) (Demo.cleaning []))))
  = ["2"].
Proof.
  destruct (timer_survives_logout_and_login (Demo.cleaning [])
              {| profile_id := "2"; full_name := "Budi";
                 role := Supervisor |}
              Demo.A104 "Cleaning" None eq_refl
              ltac:(vm_compute; discriminate) eq_refl eq_refl eq_refl)
    as (_ & _ & _ & _ & _ & _ & Haudit).
  rewrite Haudit. reflexivity.
Defined.
